(** * localkms: the local key management service of aries-framework-go

    A shallow embedding of [pkg/kms/localkms/localkms.go].  The Go methods of
    [LocalKMS] become functions that pass an explicit [World] (the contents of
    the key store, the store operations issued so far, and the pending I/O
    faults and entropy of the environment).  A Go result [(T, error)] is a
    value of [Error + T]; the three-valued results of the public methods are
    kept as triples, so that [return "", nil, err] reads the same here. *)

From stdpp Require Import gmap strings list fin_maps.
From Stdlib Require Import Strings.Byte.

Local Open Scope string_scope.
Local Open Scope list_scope.

(** ** Errors *)

(** The error values the package creates itself, and the ones it only passes
    on from its collaborators. *)
Inductive Error : Type :=
| ErrMissingKeyType            (* "failed to create new key, missing key type" *)
| ErrKeyTypeUnrecognized       (* "key type unrecognized" *)
| ErrImportUnsupported         (* "import private key does not support this key type or key is public" *)
| ErrDataNotFound              (* storage.ErrDataNotFound *)
| ErrIDAlreadyExists (id : string) (* "requested ID ... already exists" *)
| ErrKeyNotExportable          (* the keyset holds a key without a public part *)
| ErrStore (msg : string)      (* an I/O failure of the store *)
| ErrLib (msg : string).       (* a failure of the keyset library or of the secret lock *)

Global Instance Error_eq_dec : EqDecision Error.
Proof. solve_decision. Defined.

Abbreviation bytes := (list Byte.byte).

(** ** Key templates (tinkpb.KeyTemplate and the ECDSA key format) *)

Inductive OutputPrefixType : Type := UNKNOWN_PREFIX | TINK | LEGACY | RAW | CRUNCHY.
Inductive HashType : Type := UNKNOWN_HASH | SHA1 | SHA384 | SHA256 | SHA512.
Inductive EllipticCurveType : Type :=
  UNKNOWN_CURVE | NIST_P256 | NIST_P384 | NIST_P521 | CURVE25519.
Inductive EcdsaSignatureEncoding : Type := UNKNOWN_ENCODING | IEEE_P1363 | DER.

Global Instance OutputPrefixType_eq_dec : EqDecision OutputPrefixType.
Proof. solve_decision. Defined.
Global Instance HashType_eq_dec : EqDecision HashType.
Proof. solve_decision. Defined.
Global Instance EllipticCurveType_eq_dec : EqDecision EllipticCurveType.
Proof. solve_decision. Defined.
Global Instance EcdsaSignatureEncoding_eq_dec : EqDecision EcdsaSignatureEncoding.
Proof. solve_decision. Defined.

Record EcdsaParams : Type := {
  ep_HashType : HashType;
  ep_Curve : EllipticCurveType;
  ep_Encoding : EcdsaSignatureEncoding;
}.

Record EcdsaKeyFormat : Type := { ekf_Params : EcdsaParams }.

Record KeyTemplate : Type := {
  TypeUrl : string;
  Value : bytes;
  OutputPrefix : OutputPrefixType;
}.

Definition ecdsaPrivateKeyTypeURL : string :=
  "type.googleapis.com/google.crypto.tink.EcdsaPrivateKey".

(** The storage namespace of the key store. *)
Definition Namespace : string := "kmsdb".

(** ** Key types *)

(** [kms.KeyType] is a string type. *)
Abbreviation KeyType := string.

(** The key type constants of package [kms] that [getKeyTemplate] switches
    on.  They are declared outside this file, so they are taken as a
    parameter; the Go compiler only accepts the switch when the constants are
    pairwise different. *)
Record KeyTypes : Type := {
  AES128GCMType : KeyType;
  AES256GCMNoPrefixType : KeyType;
  AES256GCMType : KeyType;
  ChaCha20Poly1305Type : KeyType;
  XChaCha20Poly1305Type : KeyType;
  ECDSAP256TypeDER : KeyType;
  ECDSAP384TypeDER : KeyType;
  ECDSAP521TypeDER : KeyType;
  ECDSAP256TypeIEEEP1363 : KeyType;
  ECDSAP384TypeIEEEP1363 : KeyType;
  ECDSAP521TypeIEEEP1363 : KeyType;
  ED25519Type : KeyType;
  HMACSHA256Tag256Type : KeyType;
  ECDHES256AES256GCMType : KeyType;
  ECDHES384AES256GCMType : KeyType;
  ECDHES521AES256GCMType : KeyType;
  ECDH1PU256AES256GCMType : KeyType;
  ECDH1PU384AES256GCMType : KeyType;
  ECDH1PU521AES256GCMType : KeyType;
}.

(** The recognized key types, in the order of the cases of the switch. *)
Definition recognized (K : KeyTypes) : list KeyType :=
  [ AES128GCMType K; AES256GCMNoPrefixType K; AES256GCMType K;
    ChaCha20Poly1305Type K; XChaCha20Poly1305Type K;
    ECDSAP256TypeDER K; ECDSAP384TypeDER K; ECDSAP521TypeDER K;
    ECDSAP256TypeIEEEP1363 K; ECDSAP384TypeIEEEP1363 K; ECDSAP521TypeIEEEP1363 K;
    ED25519Type K; HMACSHA256Tag256Type K;
    ECDHES256AES256GCMType K; ECDHES384AES256GCMType K; ECDHES521AES256GCMType K;
    ECDH1PU256AES256GCMType K; ECDH1PU384AES256GCMType K; ECDH1PU521AES256GCMType K ].

(** The key templates that come ready-made from other packages (the keyset
    library's [aead], [signature] and [mac], and the composite [ecdhes] and
    [ecdh1pu] primitives), together with [proto.Marshal] on an ECDSA key
    format.  [proto.Marshal] returns the bytes and an error. *)
Record Templates : Type := {
  aead_AES128GCMKeyTemplate : KeyTemplate;
  aead_AES256GCMNoPrefixKeyTemplate : KeyTemplate;
  aead_AES256GCMKeyTemplate : KeyTemplate;
  aead_ChaCha20Poly1305KeyTemplate : KeyTemplate;
  aead_XChaCha20Poly1305KeyTemplate : KeyTemplate;
  signature_ECDSAP256KeyWithoutPrefixTemplate : KeyTemplate;
  signature_ECDSAP384KeyWithoutPrefixTemplate : KeyTemplate;
  signature_ECDSAP521KeyWithoutPrefixTemplate : KeyTemplate;
  signature_ED25519KeyWithoutPrefixTemplate : KeyTemplate;
  mac_HMACSHA256Tag256KeyTemplate : KeyTemplate;
  ecdhes_ECDHES256KWAES256GCMKeyTemplate : KeyTemplate;
  ecdhes_ECDHES384KWAES256GCMKeyTemplate : KeyTemplate;
  ecdhes_ECDHES521KWAES256GCMKeyTemplate : KeyTemplate;
  ecdh1pu_ECDH1PU256KWAES256GCMKeyTemplate : KeyTemplate;
  ecdh1pu_ECDH1PU384KWAES256GCMKeyTemplate : KeyTemplate;
  ecdh1pu_ECDH1PU521KWAES256GCMKeyTemplate : KeyTemplate;
  proto_Marshal : EcdsaKeyFormat → bytes * option Error;
}.

Section KeyTemplates.

Context (K : KeyTypes) (T : Templates).

(** [createECDSAIEEE1363KeyTemplate]: the error of [proto.Marshal] is
    dropped, the bytes are used as they come. *)
Definition createECDSAIEEE1363KeyTemplate
    (hashType : HashType) (curve : EllipticCurveType) : KeyTemplate :=
  let params := {| ep_HashType := hashType;
                   ep_Curve := curve;
                   ep_Encoding := IEEE_P1363 |} in
  let format := {| ekf_Params := params |} in
  let '(serializedFormat, _) := proto_Marshal T format in
  {| TypeUrl := ecdsaPrivateKeyTypeURL;
     Value := serializedFormat;
     OutputPrefix := RAW |}.

(** [getKeyTemplate]: a Go switch tries its cases from top to bottom and
    takes the first that is equal to the tag. *)
Definition getKeyTemplate (keyType : KeyType) : Error + KeyTemplate :=
  if String.eqb keyType (AES128GCMType K) then
    inr (aead_AES128GCMKeyTemplate T)
  else if String.eqb keyType (AES256GCMNoPrefixType K) then
    inr (aead_AES256GCMNoPrefixKeyTemplate T)
  else if String.eqb keyType (AES256GCMType K) then
    inr (aead_AES256GCMKeyTemplate T)
  else if String.eqb keyType (ChaCha20Poly1305Type K) then
    inr (aead_ChaCha20Poly1305KeyTemplate T)
  else if String.eqb keyType (XChaCha20Poly1305Type K) then
    inr (aead_XChaCha20Poly1305KeyTemplate T)
  else if String.eqb keyType (ECDSAP256TypeDER K) then
    inr (signature_ECDSAP256KeyWithoutPrefixTemplate T)
  else if String.eqb keyType (ECDSAP384TypeDER K) then
    inr (signature_ECDSAP384KeyWithoutPrefixTemplate T)
  else if String.eqb keyType (ECDSAP521TypeDER K) then
    inr (signature_ECDSAP521KeyWithoutPrefixTemplate T)
  else if String.eqb keyType (ECDSAP256TypeIEEEP1363 K) then
    inr (createECDSAIEEE1363KeyTemplate SHA256 NIST_P256)
  else if String.eqb keyType (ECDSAP384TypeIEEEP1363 K) then
    inr (createECDSAIEEE1363KeyTemplate SHA384 NIST_P384)
  else if String.eqb keyType (ECDSAP521TypeIEEEP1363 K) then
    inr (createECDSAIEEE1363KeyTemplate SHA512 NIST_P521)
  else if String.eqb keyType (ED25519Type K) then
    inr (signature_ED25519KeyWithoutPrefixTemplate T)
  else if String.eqb keyType (HMACSHA256Tag256Type K) then
    inr (mac_HMACSHA256Tag256KeyTemplate T)
  else if String.eqb keyType (ECDHES256AES256GCMType K) then
    inr (ecdhes_ECDHES256KWAES256GCMKeyTemplate T)
  else if String.eqb keyType (ECDHES384AES256GCMType K) then
    inr (ecdhes_ECDHES384KWAES256GCMKeyTemplate T)
  else if String.eqb keyType (ECDHES521AES256GCMType K) then
    inr (ecdhes_ECDHES521KWAES256GCMKeyTemplate T)
  else if String.eqb keyType (ECDH1PU256AES256GCMType K) then
    inr (ecdh1pu_ECDH1PU256KWAES256GCMKeyTemplate T)
  else if String.eqb keyType (ECDH1PU384AES256GCMType K) then
    inr (ecdh1pu_ECDH1PU384KWAES256GCMKeyTemplate T)
  else if String.eqb keyType (ECDH1PU521AES256GCMType K) then
    inr (ecdh1pu_ECDH1PU521KWAES256GCMKeyTemplate T)
  else
    inl ErrKeyTypeUnrecognized.

End KeyTemplates.

(** ** Keysets (tinkpb.Keyset, keyset.Handle, keyset.Manager) *)

Inductive KeyStatusType : Type := UNKNOWN_STATUS | ENABLED | DISABLED | DESTROYED.

Global Instance KeyStatusType_eq_dec : EqDecision KeyStatusType.
Proof. solve_decision. Defined.

(** Modelled from the spec: the key material of one entry of a keyset of the
    keyset library ("one concrete key's material plus metadata", "a private
    KeyEntry owns its raw secret bytes").  A symmetric key is all secret; a
    private asymmetric key carries its public part next to the private scalar
    (or seed); a public key has no secret. *)
Inductive KeyMaterial : Type :=
| SymmetricKey (secret : bytes)
| PrivateKey (public secret : bytes)
| PublicKey (public : bytes).

Record KeyEntry : Type := {
  ke_TypeUrl : string;
  ke_Material : KeyMaterial;
  ke_Status : KeyStatusType;
  ke_KeyId : N;
  ke_OutputPrefix : OutputPrefixType;
}.

Record Keyset : Type := {
  PrimaryKeyId : N;
  Key : list KeyEntry;
}.

(** [keyset.Handle] and [keyset.Manager] both wrap a keyset. *)
Record Handle : Type := { ks : Keyset }.
Record Manager : Type := { km_ks : Keyset }.

(** The entry a keyset designates as primary: the first one that carries the
    primary key id. *)
Definition primaryEntry (s : Keyset) : option KeyEntry :=
  List.find (λ k, N.eqb (ke_KeyId k) (PrimaryKeyId s)) (Key s).

(** ** The world: key store and environment *)

Inductive StoreOp : Type :=
| OpGet (k : string)
| OpPut (k : string) (v : bytes)
| OpDelete (k : string).

(** [store] is what the key-value store holds, [trace] the operations issued
    against it so far (oldest first).  [faults] tells how the coming store
    operations fare, one entry an operation: [Some msg] is an I/O failure,
    [None] (and the exhausted list) a store that answers.  [entropy] counts
    the random draws made so far. *)
Record World : Type := {
  store : gmap string bytes;
  trace : list StoreOp;
  faults : list (option string);
  entropy : nat;
}.

(** Issue one store operation: log it and consume its fault entry. *)
Definition issue (op : StoreOp) (w : World) : World :=
  {| store := store w; trace := trace w ++ [op];
     faults := tail (faults w); entropy := entropy w |}.

Definition fault (w : World) : option string :=
  match faults w with
  | f :: _ => f
  | [] => None
  end.

Definition set_store (m : gmap string bytes) (w : World) : World :=
  {| store := m; trace := trace w; faults := faults w; entropy := entropy w |}.

(** One random draw. *)
Definition draw (w : World) : nat * World :=
  (entropy w,
   {| store := store w; trace := trace w; faults := faults w;
      entropy := S (entropy w) |}).

(** [storage.Store]: [Get] answers [ErrDataNotFound] for an absent key; a
    failed operation leaves the contents as they were. *)
Definition store_Get (k : string) (w : World) : (Error + bytes) * World :=
  let w' := issue (OpGet k) w in
  match fault w with
  | Some msg => (inl (ErrStore msg), w')
  | None =>
      match store w !! k with
      | Some v => (inr v, w')
      | None => (inl ErrDataNotFound, w')
      end
  end.

Definition store_Put (k : string) (v : bytes) (w : World) : option Error * World :=
  let w' := issue (OpPut k v) w in
  match fault w with
  | Some msg => (Some (ErrStore msg), w')
  | None => (None, set_store (<[k := v]> (store w)) w')
  end.

Definition store_Delete (k : string) (w : World) : option Error * World :=
  let w' := issue (OpDelete k) w in
  match fault w with
  | Some msg => (Some (ErrStore msg), w')
  | None => (None, set_store (delete k (store w)) w')
  end.

(** ** Private keys handed to [ImportPrivateKey] *)

Record ecdsa_PrivateKey : Type := {
  ec_Curve : EllipticCurveType;
  ec_X : Z;
  ec_Y : Z;
  ec_D : Z;
}.

(** The dynamic value behind the [interface{}] argument of
    [ImportPrivateKey]: the two types its type switch names, and some of the
    values that fall to its default case. *)
Inductive GoValue : Type :=
| V_ecdsa_PrivateKey_ptr (pk : option ecdsa_PrivateKey)   (* *ecdsa.PrivateKey, nil pointer included *)
| V_ed25519_PrivateKey (pk : bytes)                       (* ed25519.PrivateKey *)
| V_ecdsa_PublicKey_ptr (curve : EllipticCurveType) (x y : Z)
| V_ed25519_PublicKey (pk : bytes)
| V_bytes (b : bytes)                                     (* a plain []byte *)
| V_nil                                                   (* the nil interface *)
| V_other (type_name : string) (repr : bytes).            (* a value of any other type *)

(** [kms.PrivateKeyOpts] *)
Inductive PrivateKeyOpts : Type :=
| WithKeyID (keyID : string).

(** ** What the package gets from its collaborators *)

(** The keyset library, the master-key envelope built in [New] (the secret
    lock behind it can fail), the identifier generator and the helpers of the
    package that live in its other files.  Random operations take the draw
    they consume.  The receiver [l] of the methods is this record together
    with the store of the world: [LocalKMS] has the fields [secretLock],
    [masterKeyURI], [store] and [masterKeyEnvAEAD] and no other. *)
Record Env : Type := {
  (* keyset.NewHandle(template) *)
  keyset_NewHandle : nat → KeyTemplate → Error + Handle;
  (* km.Rotate(template) on the keyset of the manager *)
  manager_Rotate : nat → Keyset → KeyTemplate → Error + Keyset;
  (* km.Handle() *)
  manager_Handle : Keyset → Error + Handle;
  (* kh.Write(keyset.NewJSONWriter(buf), masterKeyEnvAEAD): marshal and seal *)
  envelope_seal : nat → Handle → Error + bytes;
  (* keyset.Read(keyset.NewJSONReader(bytes), masterKeyEnvAEAD): open and unmarshal *)
  envelope_open : bytes → Error + Handle;
  (* a random keyset identifier *)
  random_keysetID : nat → string;
  (* the serialized form of a raw public key of the given type *)
  marshal_pubKey : string → bytes → Error + bytes;
  (* the handle built from the bytes of a public key of the given type *)
  pubKey_handle : bytes → KeyType → Error + Handle;
  (* validation of an imported key against the claimed key type, and the
     one-entry keyset built from it *)
  ecdsa_keyset : option ecdsa_PrivateKey → KeyType → Error + Keyset;
  ed25519_keyset : bytes → KeyType → Error + Keyset;
}.

(** The Go results [(string, interface{}, error)] and [([]byte, error)]. *)
Abbreviation Result3 := (string * option Handle * option Error)%type.

(** [return "", nil, err] *)
Definition fail3 (err : Error) : Result3 := ("", None, Some err).

Section LocalKMS.

Context (K : KeyTypes) (T : Templates) (E : Env).

(** *** The store writer and reader of the package *)

Record storeWriter : Type := {
  requestedKeysetID : option string;
  KeysetID : string;
}.

(** Modelled from the spec: the key id option of package [kms]
    ([WithKeyID(id)] requests a specific identifier); of several options the
    last one applied stays. *)
Definition KsID (opts : list PrivateKeyOpts) : option string :=
  fold_left (λ _ opt, match opt with WithKeyID id => Some id end) opts None.

(** Modelled from the spec: [newWriter] of the package's store writer, which
    is not part of this file. *)
Definition newWriter (opts : list PrivateKeyOpts) : storeWriter :=
  {| requestedKeysetID := KsID opts; KeysetID := "" |}.

(** Modelled from the spec: a caller-supplied identifier is looked up in the
    store, and the write fails with "ID already exists" if it is occupied. *)
Definition verifyRequestedID (id : string) (w : World) : (Error + string) * World :=
  match store_Get id w with
  | (inr _, w1) => (inl (ErrIDAlreadyExists id), w1)
  | (inl ErrDataNotFound, w1) => (inr id, w1)
  | (inl err, w1) => (inl err, w1)
  end.

(** Modelled from the spec: without a caller-supplied identifier a fresh
    random one is generated. *)
Definition newKeysetID (w : World) : (Error + string) * World :=
  let '(r, w1) := draw w in (inr (random_keysetID E r), w1).

(** Modelled from the spec: [Write] of the store writer,
    [put(optionalID, bytes) -> id | error]: allocate the identifier, then put
    the bytes under it; the identifier is left in [KeysetID]. *)
Definition storeWriter_Write (wr : storeWriter) (p : bytes) (w : World)
    : (Error + storeWriter) * World :=
  let alloc :=
    match requestedKeysetID wr with
    | Some id => verifyRequestedID id w
    | None => newKeysetID w
    end in
  match alloc with
  | (inl err, w1) => (inl err, w1)
  | (inr ksID, w1) =>
      match store_Put ksID p w1 with
      | (Some err, w2) => (inl err, w2)
      | (None, w2) =>
          (inr {| requestedKeysetID := requestedKeysetID wr; KeysetID := ksID |}, w2)
      end
  end.

(** Modelled from the spec: the store reader behind [newReader(l.store, id)],
    [get(id) -> bytes | error], "not found" if the id is absent. *)
Definition storeReader_Read (id : string) (w : World) : (Error + bytes) * World :=
  store_Get id w.

(** *** Calls into the keyset library, with the draws they consume *)

Definition NewHandle (kt : KeyTemplate) (w : World) : (Error + Handle) * World :=
  let '(r, w1) := draw w in (keyset_NewHandle E r kt, w1).

Definition NewManagerFromHandle (kh : Handle) : Manager := {| km_ks := ks kh |}.

Definition Manager_Rotate (km : Manager) (kt : KeyTemplate) (w : World)
    : (Error + Manager) * World :=
  let '(r, w1) := draw w in
  match manager_Rotate E r (km_ks km) kt with
  | inl err => (inl err, w1)
  | inr s => (inr {| km_ks := s |}, w1)
  end.

Definition Manager_Handle (km : Manager) : Error + Handle :=
  manager_Handle E (km_ks km).

Definition Handle_Write (kh : Handle) (w : World) : (Error + bytes) * World :=
  let '(r, w1) := draw w in (envelope_seal E r kh, w1).

(** *** localkms.go *)

Definition writeToStore (buf : bytes) (opts : list PrivateKeyOpts) (w : World)
    : (Error + string) * World :=
  let wr := newWriter opts in
  (* write buffer to localstorage *)
  match storeWriter_Write wr buf w with
  | (inl err, w1) => (inl err, w1)
  | (inr wr', w1) => (inr (KeysetID wr'), w1)
  end.

Definition storeKeySet (kh : Handle) (w : World) : (Error + string) * World :=
  match Handle_Write kh w with
  | (inl err, w1) => (inl err, w1)
  | (inr buf, w1) => writeToStore buf [] w1
  end.

Definition getKeySet (id : string) (w : World) : (Error + Handle) * World :=
  match storeReader_Read id w with
  | (inl err, w1) => (inl err, w1)
  | (inr data, w1) =>
      match envelope_open E data with
      | inl err => (inl err, w1)
      | inr kh => (inr kh, w1)
      end
  end.

Definition Create (kt : KeyType) (w : World) : Result3 * World :=
  if String.eqb kt "" then (fail3 ErrMissingKeyType, w)
  else
    match getKeyTemplate K T kt with
    | inl err => (fail3 err, w)
    | inr keyTemplate =>
        match NewHandle keyTemplate w with
        | (inl err, w1) => (fail3 err, w1)
        | (inr kh, w1) =>
            match storeKeySet kh w1 with
            | (inl err, w2) => (fail3 err, w2)
            | (inr kID, w2) => ((kID, Some kh, None), w2)
            end
        end
    end.

Definition Get (keyID : string) (w : World) : (Error + Handle) * World :=
  getKeySet keyID w.

Definition Rotate (kt : KeyType) (keyID : string) (w : World) : Result3 * World :=
  match getKeySet keyID w with
  | (inl err, w1) => (fail3 err, w1)
  | (inr kh, w1) =>
      match getKeyTemplate K T kt with
      | inl err => (fail3 err, w1)
      | inr keyTemplate =>
          let km := NewManagerFromHandle kh in
          match Manager_Rotate km keyTemplate w1 with
          | (inl err, w2) => (fail3 err, w2)
          | (inr km', w2) =>
              match Manager_Handle km' with
              | inl err => (fail3 err, w2)
              | inr updatedKH =>
                  match store_Delete keyID w2 with
                  | (Some err, w3) => (fail3 err, w3)
                  | (None, w3) =>
                      match storeKeySet updatedKH w3 with
                      | (inl err, w4) => (fail3 err, w4)
                      | (inr newID, w4) => ((newID, Some updatedKH, None), w4)
                      end
                  end
              end
          end
      end
  end.

(** *** Exporting the public key *)

(** Modelled from the spec: the public component of one key entry; an entry
    that is not a private asymmetric key has none to derive.  The private
    part is dropped, the metadata kept. *)
Definition publicKeyData (k : KeyEntry) : Error + KeyEntry :=
  match ke_Material k with
  | PrivateKey pub _ =>
      inr {| ke_TypeUrl := ke_TypeUrl k; ke_Material := PublicKey pub;
             ke_Status := ke_Status k; ke_KeyId := ke_KeyId k;
             ke_OutputPrefix := ke_OutputPrefix k |}
  | SymmetricKey _ | PublicKey _ => inl ErrKeyNotExportable
  end.

Fixpoint publicKeys (l : list KeyEntry) : Error + list KeyEntry :=
  match l with
  | [] => inr []
  | k :: l' =>
      match publicKeyData k with
      | inl err => inl err
      | inr pk =>
          match publicKeys l' with
          | inl err => inl err
          | inr pks => inr (pk :: pks)
          end
      end
  end.

(** Modelled from the spec: [kh.Public()] of the keyset library, "derive the
    public component from the primary private KeyEntry (fails if the keyset's
    primary key is symmetric/non-exportable)".  The library derives the public
    component of every entry of the keyset, the primary one among them, and
    keeps the primary key id. *)
Definition Handle_Public (kh : Handle) : Error + Handle :=
  match publicKeys (Key (ks kh)) with
  | inl err => inl err
  | inr pks => inr {| ks := {| PrimaryKeyId := PrimaryKeyId (ks kh); Key := pks |} |}
  end.

Definition isSecret (m : KeyMaterial) : bool :=
  match m with
  | SymmetricKey _ | PrivateKey _ _ => true
  | PublicKey _ => false
  end.

Definition hasSecrets (kh : Handle) : bool :=
  existsb (λ k, isSecret (ke_Material k)) (Key (ks kh)).

(** Modelled from the spec: the public key writer behind [NewWriter(buf)],
    "serialize public-only material": it writes the raw public key of the
    primary entry. *)
Definition PubKeyWriter_Write (s : Keyset) : Error + bytes :=
  match primaryEntry s with
  | Some k =>
      match ke_Material k with
      | PublicKey pub => marshal_pubKey E (ke_TypeUrl k) pub
      | SymmetricKey _ | PrivateKey _ _ => inl ErrKeyNotExportable
      end
  | None => inl (ErrLib "key not written")
  end.

(** Modelled from the spec: [WriteWithNoSecrets] of the keyset library, "with
    no secret bytes ever included": a keyset that holds secret key material is
    refused, any other is handed to the writer. *)
Definition Handle_WriteWithNoSecrets
    (kh : Handle) (writer : Keyset → Error + bytes) : Error + bytes :=
  if hasSecrets kh then inl ErrKeyNotExportable else writer (ks kh).

Definition ExportPubKeyBytes (id : string) (w : World)
    : (option bytes * option Error) * World :=
  match getKeySet id w with
  | (inl err, w1) => ((None, Some err), w1)
  | (inr kh, w1) =>
      (* kh must be a private asymmetric key in order to extract its public key *)
      match Handle_Public kh with
      | inl err => ((None, Some err), w1)
      | inr pubKH =>
          match Handle_WriteWithNoSecrets pubKH PubKeyWriter_Write with
          | inl err => ((None, Some err), w1)
          | inr buf => ((Some buf, None), w1)
          end
      end
  end.

(** Modelled from the spec: [publicKeyBytesToHandle], which is not part of
    this file, a "pure transformation" that "constructs an in-memory usable
    key handle from externally supplied public key bytes".  It is called with
    the bytes and the key type and nothing else. *)
Definition publicKeyBytesToHandle (pubKey : bytes) (kt : KeyType) : Error + Handle :=
  pubKey_handle E pubKey kt.

Definition PubKeyBytesToHandle (pubKey : bytes) (kt : KeyType) (w : World)
    : (Error + Handle) * World :=
  (publicKeyBytesToHandle pubKey kt, w).

(** *** Importing a private key *)

(** Modelled from the spec: the tail of an import, "construct a one-entry
    Keyset → marshal → seal → put (optionalID) → return (id, handle)", after
    the validation of the key against the claimed key type. *)
Definition importKeySet (validated : Error + Keyset)
    (opts : list PrivateKeyOpts) (w : World) : Result3 * World :=
  match validated with
  | inl err => (fail3 err, w)
  | inr s =>
      let kh := {| ks := s |} in
      match Handle_Write kh w with
      | (inl err, w1) => (fail3 err, w1)
      | (inr buf, w1) =>
          match writeToStore buf opts w1 with
          | (inl err, w2) => (fail3 err, w2)
          | (inr ksID, w2) => ((ksID, Some kh, None), w2)
          end
      end
  end.

(** Modelled from the spec: [importECDSAKey], which is not part of this
    file. *)
Definition importECDSAKey (pk : option ecdsa_PrivateKey) (kt : KeyType)
    (opts : list PrivateKeyOpts) (w : World) : Result3 * World :=
  importKeySet (ecdsa_keyset E pk kt) opts w.

(** Modelled from the spec: [importEd25519Key], which is not part of this
    file. *)
Definition importEd25519Key (pk : bytes) (kt : KeyType)
    (opts : list PrivateKeyOpts) (w : World) : Result3 * World :=
  importKeySet (ed25519_keyset E pk kt) opts w.

Definition ImportPrivateKey (privKey : GoValue) (kt : KeyType)
    (opts : list PrivateKeyOpts) (w : World) : Result3 * World :=
  match privKey with
  | V_ecdsa_PrivateKey_ptr pk => importECDSAKey pk kt opts w
  | V_ed25519_PrivateKey pk => importEd25519Key pk kt opts w
  | _ => (fail3 ErrImportUnsupported, w)
  end.

End LocalKMS.

(** ** Vocabulary of the statements *)

Section Vocabulary.

Context (K : KeyTypes) (T : Templates) (E : Env).

(** The switch of [getKeyTemplate] as a table, case by case. *)
Definition templateTable : list (KeyType * KeyTemplate) :=
  [ (AES128GCMType K, aead_AES128GCMKeyTemplate T);
    (AES256GCMNoPrefixType K, aead_AES256GCMNoPrefixKeyTemplate T);
    (AES256GCMType K, aead_AES256GCMKeyTemplate T);
    (ChaCha20Poly1305Type K, aead_ChaCha20Poly1305KeyTemplate T);
    (XChaCha20Poly1305Type K, aead_XChaCha20Poly1305KeyTemplate T);
    (ECDSAP256TypeDER K, signature_ECDSAP256KeyWithoutPrefixTemplate T);
    (ECDSAP384TypeDER K, signature_ECDSAP384KeyWithoutPrefixTemplate T);
    (ECDSAP521TypeDER K, signature_ECDSAP521KeyWithoutPrefixTemplate T);
    (ECDSAP256TypeIEEEP1363 K, createECDSAIEEE1363KeyTemplate T SHA256 NIST_P256);
    (ECDSAP384TypeIEEEP1363 K, createECDSAIEEE1363KeyTemplate T SHA384 NIST_P384);
    (ECDSAP521TypeIEEEP1363 K, createECDSAIEEE1363KeyTemplate T SHA512 NIST_P521);
    (ED25519Type K, signature_ED25519KeyWithoutPrefixTemplate T);
    (HMACSHA256Tag256Type K, mac_HMACSHA256Tag256KeyTemplate T);
    (ECDHES256AES256GCMType K, ecdhes_ECDHES256KWAES256GCMKeyTemplate T);
    (ECDHES384AES256GCMType K, ecdhes_ECDHES384KWAES256GCMKeyTemplate T);
    (ECDHES521AES256GCMType K, ecdhes_ECDHES521KWAES256GCMKeyTemplate T);
    (ECDH1PU256AES256GCMType K, ecdh1pu_ECDH1PU256KWAES256GCMKeyTemplate T);
    (ECDH1PU384AES256GCMType K, ecdh1pu_ECDH1PU384KWAES256GCMKeyTemplate T);
    (ECDH1PU521AES256GCMType K, ecdh1pu_ECDH1PU521KWAES256GCMKeyTemplate T) ].

(** The ways of [Rotate] to fail before it reaches the delete of the old
    record. *)
Inductive failsBeforeDelete (kt : KeyType) (keyID : string) (w : World) : Prop :=
| fetch_fails (err : Error) (w1 : World) :
    getKeySet E keyID w = (inl err, w1) →
    failsBeforeDelete kt keyID w
| key_type_unrecognized :
    kt ∉ recognized K →
    failsBeforeDelete kt keyID w
| rotation_fails (kh : Handle) (w1 w2 : World) (t : KeyTemplate) (err : Error) :
    getKeySet E keyID w = (inr kh, w1) →
    getKeyTemplate K T kt = inr t →
    Manager_Rotate E (NewManagerFromHandle kh) t w1 = (inl err, w2) →
    failsBeforeDelete kt keyID w
| handle_fails (kh : Handle) (w1 w2 : World) (t : KeyTemplate)
      (km' : Manager) (err : Error) :
    getKeySet E keyID w = (inr kh, w1) →
    getKeyTemplate K T kt = inr t →
    Manager_Rotate E (NewManagerFromHandle kh) t w1 = (inr km', w2) →
    Manager_Handle E km' = inl err →
    failsBeforeDelete kt keyID w.

(** The one way of [Rotate] to fail after the delete of the old record: every
    step up to the delete went through, the delete succeeded, and storing the
    updated keyset failed with the error [err], leaving the world [w']. *)
Definition storingFailsAfterDelete (kt : KeyType) (keyID : string) (w : World)
    (err : Error) (w' : World) : Prop :=
  ∃ kh t km' updatedKH w1 w2 w3,
    getKeySet E keyID w = (inr kh, w1) ∧
    getKeyTemplate K T kt = inr t ∧
    Manager_Rotate E (NewManagerFromHandle kh) t w1 = (inr km', w2) ∧
    Manager_Handle E km' = inr updatedKH ∧
    store_Delete keyID w2 = (None, w3) ∧
    storeKeySet E updatedKH w3 = (inl err, w').


(** The export of a handle already fetched: the last two steps of
    [ExportPubKeyBytes]. *)
Definition exportHandle (kh : Handle) : Error + bytes :=
  match Handle_Public kh with
  | inl err => inl err
  | inr pubKH => Handle_WriteWithNoSecrets pubKH (PubKeyWriter_Write E)
  end.

End Vocabulary.

(** What it means for a key template to be an ECDSA template with the given
    hash, curve and signature encoding: it has the type URL of the ECDSA
    private key and carries the marshalled key format with these parameters. *)
Definition ecdsaTemplateOf (T : Templates) (t : KeyTemplate)
    (h : HashType) (c : EllipticCurveType) (enc : EcdsaSignatureEncoding) : Prop :=
  TypeUrl t = ecdsaPrivateKeyTypeURL ∧
  Value t =
    fst (proto_Marshal T
           {| ekf_Params := {| ep_HashType := h; ep_Curve := c; ep_Encoding := enc |} |}).

Definition encodes (T : Templates) (enc : EcdsaSignatureEncoding) (t : KeyTemplate) : Prop :=
  ∃ h c, ecdsaTemplateOf T t h c enc.

(** The contract of the three ECDSA templates taken from the keyset library's
    [signature] package: they ask for DER signatures. *)
Definition signatureTemplatesDER (T : Templates) : Prop :=
  encodes T DER (signature_ECDSAP256KeyWithoutPrefixTemplate T) ∧
  encodes T DER (signature_ECDSAP384KeyWithoutPrefixTemplate T) ∧
  encodes T DER (signature_ECDSAP521KeyWithoutPrefixTemplate T).

(** A key with its secret bytes blanked: what is left is the public view of
    the key. *)
Definition redact (m : KeyMaterial) : KeyMaterial :=
  match m with
  | SymmetricKey _ => SymmetricKey []
  | PrivateKey pub _ => PrivateKey pub []
  | PublicKey pub => PublicKey pub
  end.

Definition redactEntry (k : KeyEntry) : KeyEntry :=
  {| ke_TypeUrl := ke_TypeUrl k; ke_Material := redact (ke_Material k);
     ke_Status := ke_Status k; ke_KeyId := ke_KeyId k;
     ke_OutputPrefix := ke_OutputPrefix k |}.

Definition redactHandle (kh : Handle) : Handle :=
  {| ks := {| PrimaryKeyId := PrimaryKeyId (ks kh);
              Key := map redactEntry (Key (ks kh)) |} |}.




(** ** A sample deployment

    Concrete collaborators on which the functions above can be run: the key
    type names, a toy wire format for key formats and keysets, and a toy
    keyset library. *)

Module Sample.

Definition keyTypes : KeyTypes := {|
  AES128GCMType := "AES128GCM";
  AES256GCMNoPrefixType := "AES256GCMNoPrefix";
  AES256GCMType := "AES256GCM";
  ChaCha20Poly1305Type := "ChaCha20Poly1305";
  XChaCha20Poly1305Type := "XChaCha20Poly1305";
  ECDSAP256TypeDER := "ECDSAP256DER";
  ECDSAP384TypeDER := "ECDSAP384DER";
  ECDSAP521TypeDER := "ECDSAP521DER";
  ECDSAP256TypeIEEEP1363 := "ECDSAP256IEEEP1363";
  ECDSAP384TypeIEEEP1363 := "ECDSAP384IEEEP1363";
  ECDSAP521TypeIEEEP1363 := "ECDSAP521IEEEP1363";
  ED25519Type := "ED25519";
  HMACSHA256Tag256Type := "HMACSHA256Tag256";
  ECDHES256AES256GCMType := "ECDHES256AES256GCM";
  ECDHES384AES256GCMType := "ECDHES384AES256GCM";
  ECDHES521AES256GCMType := "ECDHES521AES256GCM";
  ECDH1PU256AES256GCMType := "ECDH1PU256AES256GCM";
  ECDH1PU384AES256GCMType := "ECDH1PU384AES256GCM";
  ECDH1PU521AES256GCMType := "ECDH1PU521AES256GCM";
|}.

Definition hashByte (h : HashType) : Byte.byte :=
  match h with
  | UNKNOWN_HASH => x00 | SHA1 => x01 | SHA384 => x02 | SHA256 => x03 | SHA512 => x04
  end.

Definition curveByte (c : EllipticCurveType) : Byte.byte :=
  match c with
  | UNKNOWN_CURVE => x00 | NIST_P256 => x02 | NIST_P384 => x03 | NIST_P521 => x04
  | CURVE25519 => x05
  end.

Definition encodingByte (e : EcdsaSignatureEncoding) : Byte.byte :=
  match e with
  | UNKNOWN_ENCODING => x00 | IEEE_P1363 => x01 | DER => x02
  end.

Definition marshalFormat (f : EcdsaKeyFormat) : bytes * option Error :=
  ([hashByte (ep_HashType (ekf_Params f));
    curveByte (ep_Curve (ekf_Params f));
    encodingByte (ep_Encoding (ekf_Params f))], None).

Definition ecdsaDER (h : HashType) (c : EllipticCurveType) : KeyTemplate :=
  {| TypeUrl := ecdsaPrivateKeyTypeURL;
     Value := fst (marshalFormat
                {| ekf_Params := {| ep_HashType := h; ep_Curve := c; ep_Encoding := DER |} |});
     OutputPrefix := RAW |}.

Definition plain (url : string) (prefix : OutputPrefixType) : KeyTemplate :=
  {| TypeUrl := url; Value := []; OutputPrefix := prefix |}.

Definition templates : Templates := {|
  aead_AES128GCMKeyTemplate := plain "AesGcmKey" TINK;
  aead_AES256GCMNoPrefixKeyTemplate := plain "AesGcmKey" RAW;
  aead_AES256GCMKeyTemplate := plain "AesGcmKey" TINK;
  aead_ChaCha20Poly1305KeyTemplate := plain "ChaCha20Poly1305Key" TINK;
  aead_XChaCha20Poly1305KeyTemplate := plain "XChaCha20Poly1305Key" TINK;
  signature_ECDSAP256KeyWithoutPrefixTemplate := ecdsaDER SHA256 NIST_P256;
  signature_ECDSAP384KeyWithoutPrefixTemplate := ecdsaDER SHA512 NIST_P384;
  signature_ECDSAP521KeyWithoutPrefixTemplate := ecdsaDER SHA512 NIST_P521;
  signature_ED25519KeyWithoutPrefixTemplate := plain "Ed25519PrivateKey" RAW;
  mac_HMACSHA256Tag256KeyTemplate := plain "HmacKey" TINK;
  ecdhes_ECDHES256KWAES256GCMKeyTemplate := plain "EcdhesPrivateKey" TINK;
  ecdhes_ECDHES384KWAES256GCMKeyTemplate := plain "EcdhesPrivateKey" TINK;
  ecdhes_ECDHES521KWAES256GCMKeyTemplate := plain "EcdhesPrivateKey" TINK;
  ecdh1pu_ECDH1PU256KWAES256GCMKeyTemplate := plain "Ecdh1puPrivateKey" TINK;
  ecdh1pu_ECDH1PU384KWAES256GCMKeyTemplate := plain "Ecdh1puPrivateKey" TINK;
  ecdh1pu_ECDH1PU521KWAES256GCMKeyTemplate := plain "Ecdh1puPrivateKey" TINK;
  proto_Marshal := marshalFormat;
|}.

(** A fresh key for a template: symmetric for the AEAD and MAC templates, a
    private key with its public part for the others. *)
Definition newEntry (r : nat) (t : KeyTemplate) : KeyEntry :=
  {| ke_TypeUrl := TypeUrl t;
     ke_Material :=
       if String.prefix "Aes" (TypeUrl t) || String.prefix "Hmac" (TypeUrl t)
          || String.prefix "ChaCha" (TypeUrl t) || String.prefix "XChaCha" (TypeUrl t)
       then SymmetricKey [x5e; x5e]
       else PrivateKey [x04; xaa] [x2a; x2a];
     ke_Status := ENABLED;
     ke_KeyId := N.of_nat r;
     ke_OutputPrefix := OutputPrefix t |}.

(** The toy sealed form of a keyset: its first byte tells the kind of the one
    key it holds, the rest is the public part. *)
Definition seal (kh : Handle) : bytes :=
  match primaryEntry (ks kh) with
  | Some k =>
      match ke_Material k with
      | SymmetricKey _ => [x00]
      | PrivateKey pub _ | PublicKey pub => x01 :: pub
      end
  | None => []
  end.

Definition open (b : bytes) : Error + Handle :=
  match b with
  | [] => inl (ErrLib "corrupt keyset")
  | x00 :: _ =>
      inr {| ks := {| PrimaryKeyId := 7;
                      Key := [ {| ke_TypeUrl := "AesGcmKey";
                                  ke_Material := SymmetricKey [x5e; x5e];
                                  ke_Status := ENABLED; ke_KeyId := 7;
                                  ke_OutputPrefix := TINK |} ] |} |}
  | _ :: pub =>
      inr {| ks := {| PrimaryKeyId := 7;
                      Key := [ {| ke_TypeUrl := ecdsaPrivateKeyTypeURL;
                                  ke_Material := PrivateKey pub [x2a; x2a];
                                  ke_Status := ENABLED; ke_KeyId := 7;
                                  ke_OutputPrefix := RAW |} ] |} |}
  end.

Definition env : Env := {|
  keyset_NewHandle := λ r t,
    inr {| ks := {| PrimaryKeyId := N.of_nat r; Key := [newEntry r t] |} |};
  manager_Rotate := λ r s t,
    inr {| PrimaryKeyId := N.of_nat r + 100; Key := Key s ++ [newEntry (r + 100) t] |};
  manager_Handle := λ s, inr {| ks := s |};
  envelope_seal := λ _ kh, inr (seal kh);
  envelope_open := open;
  random_keysetID := λ r, String.append "id-" (String (Ascii.ascii_of_nat (48 + r)) "");
  marshal_pubKey := λ _ pub, inr pub;
  pubKey_handle := λ pub kt,
    inr {| ks := {| PrimaryKeyId := 1;
                    Key := [ {| ke_TypeUrl := kt; ke_Material := PublicKey pub;
                                ke_Status := ENABLED; ke_KeyId := 1;
                                ke_OutputPrefix := RAW |} ] |} |};
  ecdsa_keyset := λ pk kt,
    match pk with
    | Some k =>
        inr {| PrimaryKeyId := 1;
               Key := [ {| ke_TypeUrl := ecdsaPrivateKeyTypeURL;
                           ke_Material := PrivateKey [x04] [x2a];
                           ke_Status := ENABLED; ke_KeyId := 1;
                           ke_OutputPrefix := RAW |} ] |}
    | None => inl (ErrLib "private key is nil")
    end;
  ed25519_keyset := λ pk kt,
    inr {| PrimaryKeyId := 1;
           Key := [ {| ke_TypeUrl := "Ed25519PrivateKey";
                       ke_Material := PrivateKey (drop 32 pk) (take 32 pk);
                       ke_Status := ENABLED; ke_KeyId := 1;
                       ke_OutputPrefix := RAW |} ] |};
|}.

(** A store that holds one sealed asymmetric keyset under ["k1"] and one
    sealed symmetric keyset under ["k2"], and answers every operation. *)
Definition world : World := {|
  store := <["k2" := [x00]]> (<["k1" := [x01; x04; xaa]]> ∅);
  trace := [];
  faults := [];
  entropy := 0;
|}.

(** The same store on a disk that fails at the third operation. *)
Definition failingWorld : World := {|
  store := store world;
  trace := [];
  faults := [None; None; Some "disk full"];
  entropy := 0;
|}.

End Sample.

(** ** A second sample deployment, with an envelope that opens what it seals

    The keyset library of [Sample] with an envelope that works as a code
    book: it knows the keyset a [Create] of an ECDSA P-256 key makes on the
    empty world and the keyset its rotation makes, seals each to one byte and
    opens that byte to the keyset again. *)

Module Codebook.

Definition template : KeyTemplate :=
  createECDSAIEEE1363KeyTemplate Sample.templates SHA256 NIST_P256.

Definition created : Handle :=
  {| ks := {| PrimaryKeyId := 0; Key := [Sample.newEntry 0 template] |} |}.

Definition rotated : Handle :=
  {| ks := {| PrimaryKeyId := 103;
              Key := [Sample.newEntry 0 template; Sample.newEntry 103 template] |} |}.

Definition seal (kh : Handle) : bytes :=
  if N.eqb (PrimaryKeyId (ks kh)) 0 then [x00] else [x01].

Definition open (b : bytes) : Error + Handle :=
  match b with
  | [x00] => inr created
  | [x01] => inr rotated
  | _ => inl (ErrLib "corrupt keyset")
  end.

Definition env : Env := {|
  keyset_NewHandle := keyset_NewHandle Sample.env;
  manager_Rotate := manager_Rotate Sample.env;
  manager_Handle := manager_Handle Sample.env;
  envelope_seal := λ _ kh, inr (seal kh);
  envelope_open := open;
  random_keysetID := random_keysetID Sample.env;
  marshal_pubKey := marshal_pubKey Sample.env;
  pubKey_handle := pubKey_handle Sample.env;
  ecdsa_keyset := ecdsa_keyset Sample.env;
  ed25519_keyset := ed25519_keyset Sample.env;
|}.

(** An empty store that answers every operation. *)
Definition emptyWorld : World := {|
  store := ∅;
  trace := [];
  faults := [];
  entropy := 0;
|}.

(** An empty store on a disk that fails at the first operation. *)
Definition fullDisk : World := {|
  store := ∅;
  trace := [];
  faults := [Some "disk full"];
  entropy := 0;
|}.

(** The world after the creation of an ECDSA P-256 key on the empty store,
    and the world after the rotation of that key. *)
Definition afterCreate : World :=
  snd (Create Sample.keyTypes Sample.templates env "ECDSAP256IEEEP1363" emptyWorld).

Definition afterRotate : World :=
  snd (Rotate Sample.keyTypes Sample.templates env "ECDSAP256IEEEP1363" "id-2" afterCreate).

End Codebook.

(** ** The REST operations of the messaging controller

    The handlers the messaging controller registers for its REST API.  A
    handler is a path, an HTTP method and a handle function; each handle
    function of the operation executes one method of the operation's
    messaging command, which stands for it here. *)

Module MessagingREST.

(* http over didcomm endpoints *)
Definition httpOverDIDComm : string := "/http-over-didcomm".
Definition registerHTTPOverDIDCommService : string :=
  String.append httpOverDIDComm "/register".

(* message service endpoints *)
Definition msgServiceOperationID : string := "/message".
Definition registerMsgService : string :=
  String.append msgServiceOperationID "/register-service".
Definition unregisterMsgService : string :=
  String.append msgServiceOperationID "/unregister-service".
Definition msgServiceList : string :=
  String.append msgServiceOperationID "/services".
Definition sendNewMsg : string := String.append msgServiceOperationID "/send".
Definition sendReplyMsg : string := String.append msgServiceOperationID "/reply".

(** [http.MethodGet] and [http.MethodPost] *)
Definition MethodGet : string := "GET".
Definition MethodPost : string := "POST".

(** The methods of the messaging command the handle functions execute. *)
Inductive CommandMethod : Type :=
| RegisterService
| UnregisterService
| Services
| Send
| Reply
| RegisterHTTPService.

Global Instance CommandMethod_eq_dec : EqDecision CommandMethod.
Proof. solve_decision. Defined.

(** [rest.Handler], as [cmdutil.NewHTTPHandler] builds it. *)
Record Handler : Type := {
  Path : string;
  Method : string;
  handle : CommandMethod;
}.

Definition NewHTTPHandler (path method : string) (h : CommandMethod) : Handler :=
  {| Path := path; Method := method; handle := h |}.

(** The error [New] returns: "failed to create messaging controller
    command", wrapping its cause. *)
Inductive NewError (CmdError : Type) : Type :=
| FailedToCreateCommand (cause : CmdError).

Arguments FailedToCreateCommand {CmdError} cause.

Record Operation (Command : Type) : Type := {
  command : Command;
  handlers : list Handler;
}.

Arguments command {Command} o.
Arguments handlers {Command} o.

Section Operations.

(** The messaging command and [messaging.New], which come from the command
    package. *)
Context {Provider Registrar Notifier Command CmdError : Type}.
Context (messaging_New : Provider → Registrar → Notifier → CmdError + Command).

(** [registerHandler] sets the handlers of the operation. *)
Definition registerHandler (o : Operation Command) : Operation Command :=
  {| command := command o;
     handlers :=
       [ NewHTTPHandler registerMsgService MethodPost RegisterService;
         NewHTTPHandler unregisterMsgService MethodPost UnregisterService;
         NewHTTPHandler msgServiceList MethodGet Services;
         NewHTTPHandler sendNewMsg MethodPost Send;
         NewHTTPHandler sendReplyMsg MethodPost Reply;
         NewHTTPHandler registerHTTPOverDIDCommService MethodPost
           RegisterHTTPService ] |}.

Definition New (ctx : Provider) (registrar : Registrar) (notifier : Notifier)
    : NewError CmdError + Operation Command :=
  match messaging_New ctx registrar notifier with
  | inl err => inl (FailedToCreateCommand err)
  | inr msgcmd =>
      let o := {| command := msgcmd; handlers := [] |} in
      inr (registerHandler o)
  end.

Definition GetRESTHandlers (o : Operation Command) : list Handler :=
  handlers o.

End Operations.

End MessagingREST.

(** * Properties *)

(** ** Template resolution *)

(** A table searched from the top yields the entry of a key when no key
    occurs twice. *)
Lemma find_first_match {A : Type} (l : list (string * A)) (k : string) (v : A) :
  NoDup (l.*1) →
  (k, v) ∈ l →
  List.find (λ p, String.eqb k (fst p)) l = Some (k, v).
Proof.
  induction l as [|[k' v'] l IH]; simpl; intros Hnodup Hin.
  - by apply elem_of_nil in Hin.
  - apply NoDup_cons in Hnodup as [Hk' Hnodup].
    apply elem_of_cons in Hin as [[= -> ->] | Hin].
    + by rewrite String.eqb_refl.
    + destruct (String.eqb_spec k k') as [-> | Hne]; [| by apply IH].
      exfalso. apply Hk'. apply list_elem_of_fmap. by exists (k', v).
Qed.

Section TemplateFacts.

Context (K : KeyTypes) (T : Templates).

(** [getKeyTemplate] takes the first case of the table that matches. *)
Lemma getKeyTemplate_find (kt : KeyType) :
  getKeyTemplate K T kt =
  match List.find (λ p, String.eqb kt (fst p)) (templateTable K T) with
  | Some p => inr (snd p)
  | None => inl ErrKeyTypeUnrecognized
  end.
Proof.
  unfold getKeyTemplate, templateTable. simpl.
  repeat match goal with
  | |- context [String.eqb kt ?c] => destruct (String.eqb kt c); [reflexivity |]
  end.
  reflexivity.
Qed.

Lemma templateTable_keys : (templateTable K T).*1 = recognized K.
Proof. reflexivity. Qed.

(** The switch either takes one of its cases, and then the key type is one of
    the recognized ones, or falls to its default. *)
Lemma getKeyTemplate_cases (kt : KeyType) :
  ((kt ∈ recognized K) ∧ (∃ t, getKeyTemplate K T kt = inr t)) ∨
  ((kt ∉ recognized K) ∧ getKeyTemplate K T kt = inl ErrKeyTypeUnrecognized).
Proof.
  rewrite getKeyTemplate_find, <- templateTable_keys.
  destruct (List.find _ (templateTable K T)) as [[k t]|] eqn:Hfind.
  - apply find_some in Hfind as [Hin Heq]. simpl in Heq.
    apply String.eqb_eq in Heq as ->.
    left. split; [| by eexists].
    apply list_elem_of_fmap. exists (k, t). split; [done | by apply list_elem_of_In].
  - right. split; [| done].
    intros ([k t] & -> & Hin)%list_elem_of_fmap.
    apply list_elem_of_In in Hin.
    apply (find_none _ _ Hfind) in Hin. simpl in Hin.
    by rewrite String.eqb_refl in Hin.
Qed.

Lemma getKeyTemplate_recognized (kt : KeyType) :
  kt ∈ recognized K → ∃ t, getKeyTemplate K T kt = inr t.
Proof. destruct (getKeyTemplate_cases kt) as [[_ ?]|[? _]]; tauto. Qed.

Lemma getKeyTemplate_unrecognized (kt : KeyType) :
  kt ∉ recognized K → getKeyTemplate K T kt = inl ErrKeyTypeUnrecognized.
Proof. destruct (getKeyTemplate_cases kt) as [[? _]|[_ ?]]; tauto. Qed.

(** An error of the resolver is always the "unrecognized" one. *)
Lemma getKeyTemplate_error (kt : KeyType) (err : Error) :
  getKeyTemplate K T kt = inl err → err = ErrKeyTypeUnrecognized ∧ kt ∉ recognized K.
Proof.
  destruct (getKeyTemplate_cases kt) as [[_ [t Ht]]|[? Ht]]; rewrite Ht; intros [=]; auto.
Qed.

End TemplateFacts.

Section Resolution.

Context (K : KeyTypes) (T : Templates) (E : Env).

Lemma createECDSAIEEE1363KeyTemplate_spec (h : HashType) (c : EllipticCurveType) :
  ecdsaTemplateOf T (createECDSAIEEE1363KeyTemplate T h c) h c IEEE_P1363 ∧
  OutputPrefix (createECDSAIEEE1363KeyTemplate T h c) = RAW.
Proof.
  unfold ecdsaTemplateOf, createECDSAIEEE1363KeyTemplate.
  destruct (proto_Marshal T _) as [serializedFormat merr]; simpl. auto.
Qed.

Lemma Create_missing_key_type (w : World) :
  Create K T E "" w = (("", None, Some ErrMissingKeyType), w).
Proof. reflexivity. Qed.

Lemma Create_unrecognized (kt : KeyType) (w : World) :
  kt ∉ recognized K →
  ∃ err, Create K T E kt w = (("", None, Some err), w).
Proof.
  intros Hkt. unfold Create.
  destruct (String.eqb kt ""); [eexists; reflexivity |].
  rewrite (getKeyTemplate_unrecognized K T kt Hkt). eexists; reflexivity.
Qed.

(** C4.  Template resolution is a function that is defined on every key
    type: on a recognized key type it yields a template and no error, on every
    other one, the empty key type among them, the "key type unrecognized"
    error; and [Create] with an empty or unrecognized key type returns the
    empty id, no handle and an error (and leaves the world as it was). *)
Theorem template_resolution_total
    (Hempty : "" ∉ recognized K) (kt : KeyType) (w : World) :
  (kt ∈ recognized K → ∃ t, getKeyTemplate K T kt = inr t) ∧
  (kt ∉ recognized K → getKeyTemplate K T kt = inl ErrKeyTypeUnrecognized) ∧
  getKeyTemplate K T "" = inl ErrKeyTypeUnrecognized ∧
  (kt = "" ∨ kt ∉ recognized K →
   ∃ err, Create K T E kt w = (("", None, Some err), w)).
Proof.
  split; [apply getKeyTemplate_recognized |].
  split; [apply getKeyTemplate_unrecognized |].
  split; [apply getKeyTemplate_unrecognized, Hempty |].
  intros [-> | Hkt].
  - eexists. apply Create_missing_key_type.
  - by apply Create_unrecognized.
Qed.

(** When the key type constants are pairwise different, no key type is caught
    by an earlier case of the switch than its own. *)
Lemma getKeyTemplate_table (kt : KeyType) (t : KeyTemplate) :
  NoDup (recognized K) →
  (kt, t) ∈ templateTable K T →
  getKeyTemplate K T kt = inr t.
Proof.
  intros Hnodup Hin. rewrite getKeyTemplate_find.
  by rewrite (find_first_match (templateTable K T) kt t Hnodup Hin).
Qed.

Ltac in_table :=
  unfold templateTable;
  repeat (first [apply list_elem_of_here | apply list_elem_of_further]).

(** C5.  The three IEEE-P1363 ECDSA key types resolve to a template with the
    IEEE_P1363 signature encoding, the RAW output prefix and the hash that
    goes with the curve (SHA-256 with P-256, SHA-384 with P-384, SHA-512 with
    P-521); the DER key types resolve to the DER templates of the keyset
    library. *)
Theorem ecdsa_key_types_resolve
    (Hdistinct : NoDup (recognized K)) (Hder : signatureTemplatesDER T) :
  (∃ t, getKeyTemplate K T (ECDSAP256TypeIEEEP1363 K) = inr t ∧
        ecdsaTemplateOf T t SHA256 NIST_P256 IEEE_P1363 ∧ OutputPrefix t = RAW) ∧
  (∃ t, getKeyTemplate K T (ECDSAP384TypeIEEEP1363 K) = inr t ∧
        ecdsaTemplateOf T t SHA384 NIST_P384 IEEE_P1363 ∧ OutputPrefix t = RAW) ∧
  (∃ t, getKeyTemplate K T (ECDSAP521TypeIEEEP1363 K) = inr t ∧
        ecdsaTemplateOf T t SHA512 NIST_P521 IEEE_P1363 ∧ OutputPrefix t = RAW) ∧
  (∃ t, getKeyTemplate K T (ECDSAP256TypeDER K) = inr t ∧
        t = signature_ECDSAP256KeyWithoutPrefixTemplate T ∧ encodes T DER t) ∧
  (∃ t, getKeyTemplate K T (ECDSAP384TypeDER K) = inr t ∧
        t = signature_ECDSAP384KeyWithoutPrefixTemplate T ∧ encodes T DER t) ∧
  (∃ t, getKeyTemplate K T (ECDSAP521TypeDER K) = inr t ∧
        t = signature_ECDSAP521KeyWithoutPrefixTemplate T ∧ encodes T DER t).
Proof.
  destruct Hder as (Hder256 & Hder384 & Hder521).
  assert (Htable : ∀ kt t, (kt, t) ∈ templateTable K T → getKeyTemplate K T kt = inr t)
    by (intros; by apply getKeyTemplate_table).
  repeat apply conj.
  - exists (createECDSAIEEE1363KeyTemplate T SHA256 NIST_P256).
    split; [apply Htable; in_table | apply createECDSAIEEE1363KeyTemplate_spec].
  - exists (createECDSAIEEE1363KeyTemplate T SHA384 NIST_P384).
    split; [apply Htable; in_table | apply createECDSAIEEE1363KeyTemplate_spec].
  - exists (createECDSAIEEE1363KeyTemplate T SHA512 NIST_P521).
    split; [apply Htable; in_table | apply createECDSAIEEE1363KeyTemplate_spec].
  - eexists. split; [apply Htable; in_table | by split].
  - eexists. split; [apply Htable; in_table | by split].
  - eexists. split; [apply Htable; in_table | by split].
Qed.

End Resolution.

(** ** The store operations *)

Section StoreFacts.

Lemma store_Get_world (k : string) (w : World) :
  snd (store_Get k w) = issue (OpGet k) w.
Proof. unfold store_Get. by repeat case_match. Qed.

Lemma store_Get_result (k : string) (w : World) :
  fst (store_Get k w) =
  match fault w with
  | Some msg => inl (ErrStore msg)
  | None => match store w !! k with Some v => inr v | None => inl ErrDataNotFound end
  end.
Proof. unfold store_Get. by repeat case_match. Qed.

Lemma store_Delete_ok (k : string) (w w' : World) :
  store_Delete k w = (None, w') →
  fault w = None ∧ w' = set_store (delete k (store w)) (issue (OpDelete k) w).
Proof. unfold store_Delete. case_match; by intros [=]. Qed.

Lemma store_Delete_absent (k : string) (w w' : World) :
  store_Delete k w = (None, w') → store w' !! k = None.
Proof. intros [_ ->]%store_Delete_ok. simpl. apply lookup_delete_eq. Qed.

Lemma store_Delete_failed (k : string) (err : Error) (w w' : World) :
  store_Delete k w = (Some err, w') → w' = issue (OpDelete k) w.
Proof. unfold store_Delete. case_match; by intros [=]. Qed.

End StoreFacts.

(** ** The life cycle of a keyset *)

Section Lifecycle.

Context (K : KeyTypes) (T : Templates) (E : Env).

Lemma getKeySet_world (id : string) (w : World) :
  snd (getKeySet E id w) = issue (OpGet id) w.
Proof.
  unfold getKeySet, storeReader_Read.
  pose proof (store_Get_world id w) as Hw.
  destruct (store_Get id w) as [[err|data] w1]; simpl in Hw; subst w1; [done |].
  by destruct (envelope_open E data).
Qed.

(** What [getKeySet] answers is decided by the record the store holds under
    the id at the time of the call, and by whether the store answers. *)
Lemma getKeySet_result (id : string) (w : World) :
  fst (getKeySet E id w) =
  match fault w with
  | Some msg => inl (ErrStore msg)
  | None =>
      match store w !! id with
      | Some data => envelope_open E data
      | None => inl ErrDataNotFound
      end
  end.
Proof.
  unfold getKeySet, storeReader_Read, store_Get.
  destruct (fault w); [done |].
  destruct (store w !! id) as [data|]; [| done].
  by destruct (envelope_open E data).
Qed.

(** [storeKeySet] seals, draws an identifier and puts; it touches the store
    by this one put, and changes its contents only when it succeeds. *)
Lemma storeKeySet_ok (kh : Handle) (w w' : World) (id : string) :
  storeKeySet E kh w = (inr id, w') →
  ∃ blob,
    envelope_seal E (entropy w) kh = inr blob ∧
    id = random_keysetID E (S (entropy w)) ∧
    trace w' = trace w ++ [OpPut id blob] ∧
    store w' = <[id := blob]> (store w).
Proof.
  unfold storeKeySet, Handle_Write, writeToStore, storeWriter_Write, newWriter,
    newKeysetID, store_Put, draw. simpl.
  destruct (envelope_seal E (entropy w) kh) as [err|blob]; [by intros [=] |].
  simpl. destruct (fault _) eqn:Hf; simpl in *; rewrite ?Hf; intros [= <- <-]; simpl.
  by exists blob.
Qed.

Lemma storeKeySet_failed (kh : Handle) (w w' : World) (err : Error) :
  storeKeySet E kh w = (inl err, w') →
  store w' = store w ∧
  (trace w' = trace w ∨ ∃ id blob, trace w' = trace w ++ [OpPut id blob]).
Proof.
  unfold storeKeySet, Handle_Write, writeToStore, storeWriter_Write, newWriter,
    newKeysetID, store_Put, draw. simpl.
  destruct (envelope_seal E (entropy w) kh) as [err'|blob]; [intros [= <- <-]; auto |].
  simpl. destruct (fault _) eqn:Hf; simpl in *; rewrite ?Hf; intros [= <- <-]; simpl.
  split; [done | right; eauto].
Qed.

(** How far a call of [Rotate] got: the steps it went through, in the order
    of the source, with the world after each. *)
Lemma Rotate_steps (kt : KeyType) (keyID : string) (w : World) :
  let w1 := issue (OpGet keyID) w in
  let w2 := snd (draw w1) in
  (* the keyset cannot be fetched *)
  (∃ err, fst (getKeySet E keyID w) = inl err ∧
          Rotate K T E kt keyID w = (fail3 err, w1)) ∨
  (∃ kh, fst (getKeySet E keyID w) = inr kh ∧
    ((* the key type is not recognized *)
     (∃ err, getKeyTemplate K T kt = inl err ∧
             Rotate K T E kt keyID w = (fail3 err, w1)) ∨
     (∃ t, getKeyTemplate K T kt = inr t ∧
       ((* the rotation of the keyset fails *)
        (∃ err, manager_Rotate E (entropy w) (ks kh) t = inl err ∧
                Rotate K T E kt keyID w = (fail3 err, w2)) ∨
        (∃ s, manager_Rotate E (entropy w) (ks kh) t = inr s ∧
          ((∃ err, manager_Handle E s = inl err ∧
                   Rotate K T E kt keyID w = (fail3 err, w2)) ∨
           (∃ updatedKH, manager_Handle E s = inr updatedKH ∧
              Rotate K T E kt keyID w =
              match store_Delete keyID w2 with
              | (Some err, w3) => (fail3 err, w3)
              | (None, w3) =>
                  match storeKeySet E updatedKH w3 with
                  | (inl err, w4) => (fail3 err, w4)
                  | (inr newID, w4) => ((newID, Some updatedKH, None), w4)
                  end
              end))))))).
Proof.
  intros w1 w2. unfold Rotate.
  pose proof (getKeySet_world keyID w) as Hw1.
  destruct (getKeySet E keyID w) as [[err|kh] w1']; simpl in Hw1; subst w1';
    [left; by exists err | right; exists kh; split; [done |]].
  destruct (getKeyTemplate K T kt) as [err|t];
    [left; by exists err | right; exists t; split; [done |]].
  unfold Manager_Rotate, NewManagerFromHandle, Manager_Handle. simpl.
  destruct (manager_Rotate E (entropy w) (ks kh) t) as [err|s];
    [left; by exists err | right; exists s; split; [done |]].
  simpl. destruct (manager_Handle E s) as [err|updatedKH];
    [left; by exists err | right; by exists updatedKH].
Qed.


(** C2, as the code has it.  When [Rotate] returns an error it returns the
    empty id and no handle, no record has been added and no record other than
    the one under [keyID] has changed.  The record under [keyID] is as it was
    too, unless the delete had gone through and the failure came after it,
    from storing the updated keyset: then, and only then, that record is
    gone, and the error returned is the error of the storing. *)
Theorem Rotate_error_store
    (kt : KeyType) (keyID : string) (w w' : World)
    (id : string) (handle : option Handle) (err : Error) :
  Rotate K T E kt keyID w = ((id, handle, Some err), w') →
  id = "" ∧ handle = None ∧
  (store w' = store w ∨
   (storingFailsAfterDelete K T E kt keyID w err w' ∧
    is_Some (store w !! keyID) ∧
    store w' !! keyID = None ∧
    store w' = delete keyID (store w) ∧
    ∃ rest, trace w' = trace w ++ [OpGet keyID; OpDelete keyID] ++ rest)) ∧
  (∀ k v, store w' !! k = Some v → store w !! k = Some v) ∧
  (∀ k, k ≠ keyID → store w' !! k = store w !! k).
Proof.
  intros Hrot.
  assert (id = "" ∧ handle = None ∧
          (store w' = store w ∨
           (storingFailsAfterDelete K T E kt keyID w err w' ∧
            is_Some (store w !! keyID) ∧
            store w' !! keyID = None ∧
            store w' = delete keyID (store w) ∧
            ∃ rest, trace w' = trace w ++ [OpGet keyID; OpDelete keyID] ++ rest)))
    as (-> & -> & Hstore).
  { destruct (Rotate_steps kt keyID w)
      as [(e & _ & H) | (kh & Hget & [(e & _ & H) | (t & Htpl &
           [(e & _ & H) | (s & Hrotate & [(e & _ & H) | (updatedKH & Hhandle & H)])])])];
      rewrite H in Hrot; try (injection Hrot as <- <- _ <-; by auto).
    clear H.
    destruct (store_Delete keyID _) as [[e|] w3] eqn:Hdel.
    - apply store_Delete_failed in Hdel as ->.
      injection Hrot as <- <- _ <-. by auto.
    - destruct (storeKeySet E updatedKH w3) as [[e|id'] w4] eqn:Hput;
        [| by inversion Hrot].
      injection Hrot as <- <- <- <-.
      pose proof (getKeySet_world keyID w) as Hw1.
      pose proof (getKeySet_result keyID w) as Hres.
      destruct (getKeySet E keyID w) as [r w1] eqn:Hfetch.
      simpl in Hget, Hw1, Hres. subst r w1.
      assert (Hthere : is_Some (store w !! keyID)).
      { destruct (fault w); [done |]. destruct (store w !! keyID); [by eexists | done]. }
      pose proof Hdel as Hdel'. apply store_Delete_ok in Hdel' as [_ ->].
      pose proof Hput as Hput'. apply storeKeySet_failed in Hput' as [Hst Htr].
      simpl in Hst, Htr.
      repeat split; [done.. |]. right. repeat apply conj.
      + eexists kh, t, {| km_ks := s |}, updatedKH, _, _, _.
        split; [exact Hfetch |]. split; [exact Htpl |].
        split; [unfold Manager_Rotate, NewManagerFromHandle; simpl;
                by rewrite Hrotate |].
        split; [exact Hhandle |]. split; [exact Hdel | exact Hput].
      + exact Hthere.
      + rewrite Hst. apply lookup_delete_eq.
      + exact Hst.
      + destruct Htr as [-> | (id' & blob & ->)].
        * exists []. by rewrite <- !app_assoc.
        * exists [OpPut id' blob]. by rewrite <- !app_assoc. }
  repeat split; [done.. | |].
  - intros k v. destruct Hstore as [-> | (_ & _ & _ & -> & _)]; [done |].
    by intros [_ ?]%lookup_delete_Some.
  - intros k Hk. destruct Hstore as [-> | (_ & _ & _ & -> & _)]; [done |].
    by apply lookup_delete_ne.
Qed.

(** C10.  When [Rotate] fails before its delete step, because the keyset
    cannot be fetched or opened, the key type is not recognized or the
    rotation of the keyset in memory fails, it returns an error and the store
    holds what it held: the record under [keyID] is untouched and no record
    is added.  The one store operation issued is the read of [keyID]. *)
Theorem Rotate_early_failure (kt : KeyType) (keyID : string) (w : World) :
  failsBeforeDelete K T E kt keyID w →
  ∃ err w',
    Rotate K T E kt keyID w = (("", None, Some err), w') ∧
    store w' = store w ∧
    store w' !! keyID = store w !! keyID ∧
    trace w' = trace w ++ [OpGet keyID].
Proof.
  intros Hfail.
  destruct (Rotate_steps kt keyID w)
    as [(e & Hget & H) | (kh & Hget & [(e & Htpl & H) | (t & Htpl &
         [(e & Hrot & H) | (s & Hrot & [(e & Hh & H) | (updatedKH & Hh & H)])])])];
    try (exists e; eexists; split; [exact H | by simpl]).
  exfalso. clear H.
  destruct Hfail as [err w1 Hf | Hkt | kh' w1 w2 t' err Hf Ht Hr
                     | kh' w1 w2 t' km' err Hf Ht Hr Hm].
  - rewrite Hf in Hget. by inversion Hget.
  - rewrite (getKeyTemplate_unrecognized K T kt Hkt) in Htpl. by inversion Htpl.
  - pose proof (getKeySet_world keyID w) as Hw. rewrite Hf in Hget, Hw.
    simpl in *. injection Hget as ->. subst w1.
    rewrite Htpl in Ht. injection Ht as <-.
    unfold Manager_Rotate, NewManagerFromHandle in Hr. simpl in Hr.
    rewrite Hrot in Hr. by inversion Hr.
  - pose proof (getKeySet_world keyID w) as Hw. rewrite Hf in Hget, Hw.
    simpl in *. injection Hget as ->. subst w1.
    rewrite Htpl in Ht. injection Ht as <-.
    unfold Manager_Rotate, NewManagerFromHandle in Hr. simpl in Hr.
    rewrite Hrot in Hr. injection Hr as <- _.
    unfold Manager_Handle in Hm. simpl in Hm. rewrite Hh in Hm. by inversion Hm.
Qed.

(** C8.  [Get] keeps nothing between calls.  Every call issues one read of
    the record under the id, and what it answers is what the master-key
    envelope makes of the record the store holds then: the handle the
    envelope opens the record to, or the error of the opening.  So two calls
    that find the same record answer the same, and when the record is absent,
    in particular when it has just been deleted, [Get] returns an error and
    no handle, and the error is "not found" when the store answers the
    read. *)
Theorem Get_rereads_store (keyID : string) (w : World) :
  snd (Get E keyID w) = issue (OpGet keyID) w ∧
  fst (Get E keyID w) =
    match fault w with
    | Some msg => inl (ErrStore msg)
    | None =>
        match store w !! keyID with
        | Some data => envelope_open E data
        | None => inl ErrDataNotFound
        end
    end ∧
  (∀ data kh, fault w = None → store w !! keyID = Some data →
              (fst (Get E keyID w) = inr kh ↔ envelope_open E data = inr kh)) ∧
  (∀ w0, store w0 !! keyID = store w !! keyID → fault w0 = fault w →
         fst (Get E keyID w0) = fst (Get E keyID w)) ∧
  (store w !! keyID = None →
   ∃ err, fst (Get E keyID w) = inl err ∧ (fault w = None → err = ErrDataNotFound)) ∧
  (∀ w0, store_Delete keyID w0 = (None, w) →
   ∃ err, fst (Get E keyID w) = inl err ∧ (fault w = None → err = ErrDataNotFound)).
Proof.
  assert (Habsent : store w !! keyID = None →
            ∃ err, fst (Get E keyID w) = inl err ∧
                   (fault w = None → err = ErrDataNotFound)).
  { intros Hnone. unfold Get. rewrite getKeySet_result, Hnone.
    destruct (fault w) as [msg|]; eexists; (split; [reflexivity | by intros]). }
  repeat apply conj.
  - apply getKeySet_world.
  - apply getKeySet_result.
  - intros data kh Hfault Hrec. unfold Get.
    by rewrite getKeySet_result, Hfault, Hrec.
  - intros w0 Hrec Hfault. unfold Get. by rewrite !getKeySet_result, Hrec, Hfault.
  - exact Habsent.
  - intros w0 Hdel. apply Habsent. by apply store_Delete_absent in Hdel.
Qed.

(** C9.  [PubKeyBytesToHandle] does no storage I/O: the world after the call
    is the world before it, with the same records and no store operation
    issued, and the handle it returns is the same in every world: it is built
    from the bytes and the key type alone. *)
Theorem PubKeyBytesToHandle_no_storage_io
    (pubKey : bytes) (kt : KeyType) (w : World) :
  snd (PubKeyBytesToHandle E pubKey kt w) = w ∧
  store (snd (PubKeyBytesToHandle E pubKey kt w)) = store w ∧
  trace (snd (PubKeyBytesToHandle E pubKey kt w)) = trace w ∧
  (∀ w0, fst (PubKeyBytesToHandle E pubKey kt w0)
         = fst (PubKeyBytesToHandle E pubKey kt w)) ∧
  fst (PubKeyBytesToHandle E pubKey kt w) = publicKeyBytesToHandle E pubKey kt.
Proof. by unfold PubKeyBytesToHandle. Qed.

(** C7.  A value that is neither an ECDSA private key nor an Ed25519 private
    key falls to the default case of the type switch: [ImportPrivateKey]
    returns the empty id, no handle and the "does not support this key type
    or key is public" error, whatever the key type and the options, and does
    not touch the world. *)
Theorem ImportPrivateKey_rejects_other
    (privKey : GoValue) (kt : KeyType) (opts : list PrivateKeyOpts) (w : World) :
  (∀ pk, privKey ≠ V_ecdsa_PrivateKey_ptr pk) →
  (∀ pk, privKey ≠ V_ed25519_PrivateKey pk) →
  ImportPrivateKey E privKey kt opts w = (("", None, Some ErrImportUnsupported), w).
Proof.
  intros Hecdsa Hed. destruct privKey as [pk|pk| | | | |]; try reflexivity.
  - by destruct (Hecdsa pk).
  - by destruct (Hed pk).
Qed.



End Lifecycle.

(** ** Exporting the public key *)

Section PublicExport.

Context (E : Env).

Lemma ExportPubKeyBytes_fetched (id : string) (w w1 : World) (kh : Handle) :
  getKeySet E id w = (inr kh, w1) →
  ExportPubKeyBytes E id w =
  (match exportHandle E kh with
   | inl err => (None, Some err)
   | inr buf => (Some buf, None)
   end, w1).
Proof.
  intros Hget. unfold ExportPubKeyBytes, exportHandle. rewrite Hget.
  destruct (Handle_Public kh) as [err|pubKH]; [done |].
  by destruct (Handle_WriteWithNoSecrets pubKH _).
Qed.

Lemma publicKeyData_redact (k : KeyEntry) :
  publicKeyData (redactEntry k) = publicKeyData k.
Proof. unfold publicKeyData, redactEntry. simpl. by destruct (ke_Material k). Qed.

Lemma publicKeys_redact (l : list KeyEntry) :
  publicKeys (map redactEntry l) = publicKeys l.
Proof.
  induction l as [|k l IH]; [done |].
  simpl. by rewrite publicKeyData_redact, IH.
Qed.

Lemma exportHandle_redact (kh : Handle) :
  exportHandle E (redactHandle kh) = exportHandle E kh.
Proof.
  unfold exportHandle, Handle_Public, redactHandle. simpl.
  by rewrite publicKeys_redact.
Qed.

(** A keyset with an entry that is not a private asymmetric key has no
    public keyset. *)
Lemma publicKeys_not_private (l : list KeyEntry) (k : KeyEntry) :
  k ∈ l →
  (∀ pub secret, ke_Material k ≠ PrivateKey pub secret) →
  ∃ err, publicKeys l = inl err.
Proof.
  intros Hin Hk. induction Hin as [k l | k k' l Hin IH]; simpl.
  - unfold publicKeyData. destruct (ke_Material k) as [s|pub s|pub] eqn:Hm;
      [by eexists | by destruct (Hk pub s) | by eexists].
  - destruct (publicKeyData k'); [by eexists |].
    destruct (IH Hk) as [err ->]. by eexists.
Qed.

(** The public keyset has the entries of the private one, in their order,
    each with its public part alone. *)
Lemma publicKeys_find (l pks : list KeyEntry) (id : N) :
  publicKeys l = inr pks →
  List.find (λ k, N.eqb (ke_KeyId k) id) pks =
  match List.find (λ k, N.eqb (ke_KeyId k) id) l with
  | Some k =>
      match publicKeyData k with
      | inr pk => Some pk
      | inl _ => None
      end
  | None => None
  end.
Proof.
  revert pks. induction l as [|k l IH]; simpl; intros pks Hpks.
  - by injection Hpks as <-.
  - destruct (publicKeyData k) as [err|pk] eqn:Hpk; [done |].
    destruct (publicKeys l) as [err|pks']; [done |].
    injection Hpks as <-. simpl.
    assert (ke_KeyId pk = ke_KeyId k) as ->.
    { unfold publicKeyData in Hpk. destruct (ke_Material k); try done.
      by injection Hpk as <-. }
    destruct (N.eqb (ke_KeyId k) id); [by rewrite Hpk | by apply IH].
Qed.

Lemma publicKeys_no_secrets (l pks : list KeyEntry) :
  publicKeys l = inr pks →
  existsb (λ k, isSecret (ke_Material k)) pks = false.
Proof.
  revert pks. induction l as [|k l IH]; simpl; intros pks Hpks.
  - by injection Hpks as <-.
  - destruct (publicKeyData k) as [err|pk] eqn:Hpk; [done |].
    destruct (publicKeys l) as [err|pks']; [done |].
    injection Hpks as <-. simpl. rewrite (IH pks' eq_refl).
    unfold publicKeyData in Hpk. destruct (ke_Material k); try done.
    by injection Hpk as <-.
Qed.

(** What a successful export writes: the marshalled public part of the
    primary entry. *)
Lemma exportHandle_ok (kh : Handle) (out : bytes) :
  exportHandle E kh = inr out →
  ∃ k pub secret,
    primaryEntry (ks kh) = Some k ∧
    ke_Material k = PrivateKey pub secret ∧
    marshal_pubKey E (ke_TypeUrl k) pub = inr out.
Proof.
  unfold exportHandle, Handle_Public.
  destruct (publicKeys (Key (ks kh))) as [err|pks] eqn:Hpks; [done |].
  unfold Handle_WriteWithNoSecrets, hasSecrets. simpl.
  rewrite (publicKeys_no_secrets _ _ Hpks).
  unfold PubKeyWriter_Write, primaryEntry. simpl.
  rewrite (publicKeys_find _ _ (PrimaryKeyId (ks kh)) Hpks).
  destruct (List.find _ (Key (ks kh))) as [k|]; [| done].
  unfold publicKeyData. destruct (ke_Material k) as [s|pub s|pub] eqn:Hm; try done.
  simpl. intros Hout. by exists k, pub, s.
Qed.

(** C3.  For a keyset whose primary key is symmetric, [ExportPubKeyBytes]
    returns an error.  When it returns bytes, the primary key is a private
    asymmetric key and the bytes are the marshalled public part of it, and
    they are the same for every keyset that differs only in secret bytes: no
    private key byte goes into them. *)
Theorem ExportPubKeyBytes_public_only
    (id : string) (w w1 : World) (kh : Handle) :
  getKeySet E id w = (inr kh, w1) →
  (∀ k secret,
     primaryEntry (ks kh) = Some k → ke_Material k = SymmetricKey secret →
     ∃ err, ExportPubKeyBytes E id w = ((None, Some err), w1)) ∧
  (∀ out w',
     ExportPubKeyBytes E id w = ((Some out, None), w') →
     ∃ k pub secret,
       primaryEntry (ks kh) = Some k ∧
       ke_Material k = PrivateKey pub secret ∧
       marshal_pubKey E (ke_TypeUrl k) pub = inr out) ∧
  (∀ id2 w2 w2' kh2,
     getKeySet E id2 w2 = (inr kh2, w2') →
     redactHandle kh2 = redactHandle kh →
     fst (ExportPubKeyBytes E id2 w2) = fst (ExportPubKeyBytes E id w)).
Proof.
  intros Hget. rewrite (ExportPubKeyBytes_fetched id w w1 kh Hget).
  repeat apply conj.
  - intros k secret Hprim Hsym.
    apply find_some in Hprim as [Hin _]. apply list_elem_of_In in Hin.
    destruct (publicKeys_not_private (Key (ks kh)) k Hin) as [err Herr];
      [intros pub s; by rewrite Hsym |].
    unfold exportHandle, Handle_Public. rewrite Herr. by exists err.
  - intros out w'. destruct (exportHandle E kh) as [err|buf] eqn:Hexp; [done |].
    intros [= <- _]. by apply exportHandle_ok.
  - intros id2 w2 w2' kh2 Hget2 Hsame.
    rewrite (ExportPubKeyBytes_fetched id2 w2 w2' kh2 Hget2). simpl.
    by rewrite <- (exportHandle_redact kh2), Hsame, exportHandle_redact.
Qed.

End PublicExport.

(** ** Runs on the sample deployment *)

Lemma sample_keyTypes_nonempty : "" ∉ recognized Sample.keyTypes.
Proof.
  unfold recognized. simpl. rewrite !not_elem_of_cons.
  repeat split; (discriminate || apply not_elem_of_nil).
Defined.

Lemma sample_keyTypes_distinct : NoDup (recognized Sample.keyTypes).
Proof.
  apply (bool_decide_unpack (NoDup (recognized Sample.keyTypes))).
  vm_compute. exact I.
Defined.

Lemma sample_templates_DER : signatureTemplatesDER Sample.templates.
Proof.
  repeat split.
  - by exists SHA256, NIST_P256.
  - by exists SHA512, NIST_P384.
  - by exists SHA512, NIST_P521.
Defined.



(** C2: an error of [Rotate] does not leave the store unchanged.  When the
    put of the rotated keyset fails, the record under ["k1"] has already been
    deleted. *)
Lemma Rotate_error_after_delete :
  let r := Rotate Sample.keyTypes Sample.templates Sample.env
             "ECDSAP256IEEEP1363" "k1" Sample.failingWorld in
  fst r = ("", None, Some (ErrStore "disk full")) ∧
  store Sample.failingWorld !! "k1" = Some [x01; x04; xaa] ∧
  store (snd r) !! "k1" = None ∧
  store (snd r) ≠ store Sample.failingWorld.
Proof.
  intros r.
  assert (Hgone : store (snd r) !! "k1" = None) by (vm_compute; reflexivity).
  assert (Hthere : store Sample.failingWorld !! "k1" = Some [x01; x04; xaa])
    by (vm_compute; reflexivity).
  split; [vm_compute; reflexivity |].
  split; [exact Hthere |]. split; [exact Hgone |].
  intros Heq. rewrite Heq, Hthere in Hgone. discriminate.
Qed.

Lemma Rotate_error_store_witness :
  let r := Rotate Sample.keyTypes Sample.templates Sample.env
             "ECDSAP256IEEEP1363" "k1" Sample.failingWorld in
  r = (("", None, Some (ErrStore "disk full")), snd r) ∧
  "" = "" ∧ @None Handle = None ∧
  (store (snd r) = store Sample.failingWorld ∨
   (storingFailsAfterDelete Sample.keyTypes Sample.templates Sample.env
      "ECDSAP256IEEEP1363" "k1" Sample.failingWorld (ErrStore "disk full") (snd r) ∧
    is_Some (store Sample.failingWorld !! "k1") ∧
    store (snd r) !! "k1" = None ∧
    store (snd r) = delete "k1" (store Sample.failingWorld) ∧
    ∃ rest, trace (snd r) = trace Sample.failingWorld
                            ++ [OpGet "k1"; OpDelete "k1"] ++ rest)) ∧
  (∀ k v, store (snd r) !! k = Some v → store Sample.failingWorld !! k = Some v) ∧
  (∀ k, k ≠ "k1" → store (snd r) !! k = store Sample.failingWorld !! k).
Proof.
  intros r.
  assert (Hrun : r = (("", None, Some (ErrStore "disk full")), snd r))
    by (vm_compute; reflexivity).
  split; [exact Hrun |].
  exact (Rotate_error_store Sample.keyTypes Sample.templates Sample.env
           "ECDSAP256IEEEP1363" "k1" Sample.failingWorld (snd r) "" None
           (ErrStore "disk full") Hrun).
Defined.

Lemma template_resolution_total_witness :
  ("" ∉ recognized Sample.keyTypes) ∧
  ("ROT13" ∈ recognized Sample.keyTypes →
   ∃ t, getKeyTemplate Sample.keyTypes Sample.templates "ROT13" = inr t) ∧
  ("ROT13" ∉ recognized Sample.keyTypes →
   getKeyTemplate Sample.keyTypes Sample.templates "ROT13" = inl ErrKeyTypeUnrecognized) ∧
  getKeyTemplate Sample.keyTypes Sample.templates "" = inl ErrKeyTypeUnrecognized ∧
  ("ROT13" = "" ∨ "ROT13" ∉ recognized Sample.keyTypes →
   ∃ err, Create Sample.keyTypes Sample.templates Sample.env "ROT13" Sample.world
          = (("", None, Some err), Sample.world)).
Proof.
  split; [exact sample_keyTypes_nonempty |].
  exact (template_resolution_total Sample.keyTypes Sample.templates Sample.env
           sample_keyTypes_nonempty "ROT13" Sample.world).
Defined.

Lemma ecdsa_key_types_resolve_witness :
  NoDup (recognized Sample.keyTypes) ∧
  signatureTemplatesDER Sample.templates ∧
  (∃ t, getKeyTemplate Sample.keyTypes Sample.templates "ECDSAP256IEEEP1363" = inr t ∧
        ecdsaTemplateOf Sample.templates t SHA256 NIST_P256 IEEE_P1363 ∧
        OutputPrefix t = RAW) ∧
  (∃ t, getKeyTemplate Sample.keyTypes Sample.templates "ECDSAP256DER" = inr t ∧
        t = signature_ECDSAP256KeyWithoutPrefixTemplate Sample.templates ∧
        encodes Sample.templates DER t).
Proof.
  split; [exact sample_keyTypes_distinct |].
  split; [exact sample_templates_DER |].
  destruct (ecdsa_key_types_resolve Sample.keyTypes Sample.templates
              sample_keyTypes_distinct sample_templates_DER)
    as (H256 & _ & _ & Hder256 & _).
  split; [exact H256 | exact Hder256].
Defined.

Lemma Rotate_early_failure_witness :
  failsBeforeDelete Sample.keyTypes Sample.templates Sample.env
    "ECDSAP256IEEEP1363" "k9" Sample.world ∧
  ∃ err w',
    Rotate Sample.keyTypes Sample.templates Sample.env
      "ECDSAP256IEEEP1363" "k9" Sample.world = (("", None, Some err), w') ∧
    store w' = store Sample.world ∧
    store w' !! "k9" = store Sample.world !! "k9" ∧
    trace w' = trace Sample.world ++ [OpGet "k9"].
Proof.
  assert (Hfail : failsBeforeDelete Sample.keyTypes Sample.templates Sample.env
                    "ECDSAP256IEEEP1363" "k9" Sample.world).
  { apply (fetch_fails _ _ _ _ _ _ ErrDataNotFound (issue (OpGet "k9") Sample.world)).
    vm_compute. reflexivity. }
  split; [exact Hfail |].
  exact (Rotate_early_failure Sample.keyTypes Sample.templates Sample.env
           "ECDSAP256IEEEP1363" "k9" Sample.world Hfail).
Defined.

(** The sample store before and after the record under ["k1"] has been
    deleted: first [Get] returns the handle the envelope opens the stored
    bytes to, then "not found". *)
Lemma Get_rereads_store_witness :
  let w := snd (store_Delete "k1" (snd (Get Sample.env "k1" Sample.world))) in
  fst (Get Sample.env "k1" Sample.world) = Sample.open [x01; x04; xaa] ∧
  fst (Get Sample.env "k1" Sample.world)
  = inr {| ks := {| PrimaryKeyId := 7;
                    Key := [ {| ke_TypeUrl := ecdsaPrivateKeyTypeURL;
                                ke_Material := PrivateKey [x04; xaa] [x2a; x2a];
                                ke_Status := ENABLED; ke_KeyId := 7;
                                ke_OutputPrefix := RAW |} ] |} |} ∧
  fst (Get Sample.env "k1" w) = inl ErrDataNotFound.
Proof.
  intros w.
  destruct (Get_rereads_store Sample.env "k1" Sample.world) as (_ & Hres & Hopen & _).
  assert (Hfault : fault Sample.world = None) by reflexivity.
  assert (Hrec : store Sample.world !! "k1" = Some [x01; x04; xaa])
    by (vm_compute; reflexivity).
  split; [by rewrite Hres, Hfault, Hrec |].
  split; [by apply (Hopen [x01; x04; xaa] _ Hfault Hrec) |].
  destruct (Get_rereads_store Sample.env "k1" w) as (_ & _ & _ & _ & Habsent & _).
  destruct Habsent as (err & -> & Herr); [vm_compute; reflexivity |].
  f_equal. apply Herr. vm_compute. reflexivity.
Defined.

Lemma ImportPrivateKey_rejects_other_witness :
  (∀ pk, V_bytes [x5e; x5e] ≠ V_ecdsa_PrivateKey_ptr pk) ∧
  (∀ pk, V_bytes [x5e; x5e] ≠ V_ed25519_PrivateKey pk) ∧
  ImportPrivateKey Sample.env (V_bytes [x5e; x5e]) "AES256GCM" [] Sample.world
  = (("", None, Some ErrImportUnsupported), Sample.world).
Proof.
  assert (H1 : ∀ pk, V_bytes [x5e; x5e] ≠ V_ecdsa_PrivateKey_ptr pk)
    by (intros pk; discriminate).
  assert (H2 : ∀ pk, V_bytes [x5e; x5e] ≠ V_ed25519_PrivateKey pk)
    by (intros pk; discriminate).
  split; [exact H1 |]. split; [exact H2 |].
  exact (ImportPrivateKey_rejects_other Sample.env (V_bytes [x5e; x5e])
           "AES256GCM" [] Sample.world H1 H2).
Defined.



Lemma ExportPubKeyBytes_public_only_witness :
  let kh := {| ks := {| PrimaryKeyId := 7;
                        Key := [ {| ke_TypeUrl := ecdsaPrivateKeyTypeURL;
                                    ke_Material := PrivateKey [x04; xaa] [x2a; x2a];
                                    ke_Status := ENABLED; ke_KeyId := 7;
                                    ke_OutputPrefix := RAW |} ] |} |} in
  getKeySet Sample.env "k1" Sample.world = (inr kh, issue (OpGet "k1") Sample.world) ∧
  fst (ExportPubKeyBytes Sample.env "k1" Sample.world) = (Some [x04; xaa], None) ∧
  (∃ err, fst (ExportPubKeyBytes Sample.env "k2" Sample.world) = (None, Some err)) ∧
  ∃ k pub secret,
    primaryEntry (ks kh) = Some k ∧
    ke_Material k = PrivateKey pub secret ∧
    marshal_pubKey Sample.env (ke_TypeUrl k) pub = inr [x04; xaa].
Proof.
  intros kh.
  assert (Hget : getKeySet Sample.env "k1" Sample.world
                 = (inr kh, issue (OpGet "k1") Sample.world))
    by (vm_compute; reflexivity).
  split; [exact Hget |]. split; [vm_compute; reflexivity |].
  split; [eexists; vm_compute; reflexivity |].
  destruct (ExportPubKeyBytes_public_only Sample.env "k1" Sample.world
              (issue (OpGet "k1") Sample.world) kh Hget) as (_ & Hout & _).
  apply (Hout [x04; xaa] (issue (OpGet "k1") Sample.world)).
  vm_compute. reflexivity.
Defined.

(** ** How the operations compose *)

Section Composition.

Context (K : KeyTypes) (T : Templates) (E : Env).

(** A keyset is fetched only from a store that answers and holds a record
    under the id that the envelope opens. *)
Lemma getKeySet_ok (id : string) (w w1 : World) (kh : Handle) :
  getKeySet E id w = (inr kh, w1) →
  fault w = None ∧
  w1 = issue (OpGet id) w ∧
  ∃ data, store w !! id = Some data ∧ envelope_open E data = inr kh.
Proof.
  intros Hget.
  pose proof (getKeySet_result E id w) as Hres.
  pose proof (getKeySet_world E id w) as Hw.
  rewrite Hget in Hres, Hw. simpl in Hres, Hw.
  destruct (fault w) as [msg|]; [done |].
  destruct (store w !! id) as [data|]; [| done].
  repeat split; [done |]. by exists data.
Qed.

Lemma getKeySet_stored (id : string) (w : World) (data : bytes) :
  fault w = None →
  store w !! id = Some data →
  getKeySet E id w = (envelope_open E data, issue (OpGet id) w).
Proof.
  intros Hf Hrec.
  pose proof (getKeySet_result E id w) as Hres.
  pose proof (getKeySet_world E id w) as Hw.
  rewrite Hf, Hrec in Hres.
  destruct (getKeySet E id w) as [r w1]. simpl in *. by subst.
Qed.

Lemma getKeySet_missing (id : string) (w : World) :
  fault w = None →
  store w !! id = None →
  getKeySet E id w = (inl ErrDataNotFound, issue (OpGet id) w).
Proof.
  intros Hf Hrec.
  pose proof (getKeySet_result E id w) as Hres.
  pose proof (getKeySet_world E id w) as Hw.
  rewrite Hf, Hrec in Hres.
  destruct (getKeySet E id w) as [r w1]. simpl in *. by subst.
Qed.

(** When the keyset cannot be fetched, [Rotate] stops there with the error
    of the fetch, whatever the key type. *)
Lemma Rotate_fetch_error (kt : KeyType) (keyID : string) (w : World) (err : Error) :
  fst (getKeySet E keyID w) = inl err →
  Rotate K T E kt keyID w = (fail3 err, issue (OpGet keyID) w).
Proof.
  intros Hget. unfold Rotate.
  pose proof (getKeySet_world E keyID w) as Hw.
  destruct (getKeySet E keyID w) as [[e|kh] w1]; simpl in *; [| done].
  injection Hget as ->. by subst.
Qed.

(** The steps a successful [Create] went through. *)
Lemma Create_ok_inv (kt : KeyType) (w w' : World) (kID : string) (handle : option Handle) :
  Create K T E kt w = ((kID, handle, None), w') →
  ∃ t kh blob,
    getKeyTemplate K T kt = inr t ∧
    keyset_NewHandle E (entropy w) t = inr kh ∧
    handle = Some kh ∧
    envelope_seal E (S (entropy w)) kh = inr blob ∧
    kID = random_keysetID E (S (S (entropy w))) ∧
    fault w = None ∧
    trace w' = trace w ++ [OpPut kID blob] ∧
    faults w' = tail (faults w) ∧
    store w' = <[kID := blob]> (store w).
Proof.
  unfold Create. destruct (String.eqb kt ""); [by intros [=] |].
  destruct (getKeyTemplate K T kt) as [err|t]; [by intros [=] |].
  unfold NewHandle, draw. simpl.
  destruct (keyset_NewHandle E (entropy w) t) as [err|kh] eqn:Hnew; [by intros [=] |].
  unfold storeKeySet, Handle_Write, writeToStore, storeWriter_Write, newWriter,
    newKeysetID, store_Put, draw, fault. simpl.
  destruct (envelope_seal E (S (entropy w)) kh) as [err|blob] eqn:Hseal;
    [by intros [=] |].
  simpl. destruct (faults w) as [|[msg|] fs]; simpl; intros [= <- <- <-]; simpl;
    exists t, kh, blob; by repeat apply conj.
Qed.

(** A failed [Create] leaves the store as it was. *)
Lemma Create_error_inv (kt : KeyType) (w w' : World)
    (id : string) (handle : option Handle) (err : Error) :
  Create K T E kt w = ((id, handle, Some err), w') →
  store w' = store w.
Proof.
  unfold Create. destruct (String.eqb kt ""); [by intros [= <- <- _ <-] |].
  destruct (getKeyTemplate K T kt) as [e|t]; [by intros [= <- <- _ <-] |].
  unfold NewHandle, draw. simpl.
  destruct (keyset_NewHandle E (entropy w) t) as [e|kh]; [by intros [= <- <- _ <-] |].
  destruct (storeKeySet E kh _) as [[e|kID] w2] eqn:Hput; [| by intros [=]].
  intros [= <- <- _ <-]. by apply storeKeySet_failed in Hput as [Hstore _].
Qed.

(** The steps a successful [Rotate] went through. *)
Lemma Rotate_ok_inv (kt : KeyType) (keyID : string) (w w' : World)
    (newID : string) (handle : option Handle) :
  Rotate K T E kt keyID w = ((newID, handle, None), w') →
  ∃ data updatedKH blob,
    store w !! keyID = Some data ∧
    handle = Some updatedKH ∧
    envelope_seal E (S (entropy w)) updatedKH = inr blob ∧
    newID = random_keysetID E (S (S (entropy w))) ∧
    store w' = <[newID := blob]> (delete keyID (store w)).
Proof.
  intros Hrot.
  destruct (Rotate_steps K T E kt keyID w)
    as [(err & _ & H) | (kh & Hget & [(err & _ & H) | (t & _ &
         [(err & _ & H) | (s & _ & [(err & _ & H) | (updatedKH & _ & H)])])])];
    rewrite H in Hrot; try by inversion Hrot.
  clear H.
  destruct (getKeySet E keyID w) as [r w1] eqn:Hfetch. simpl in Hget. subst r.
  apply getKeySet_ok in Hfetch as (_ & _ & data & Hdata & _).
  destruct (store_Delete keyID _) as [[err|] w3] eqn:Hdel; [by inversion Hrot |].
  apply store_Delete_ok in Hdel as [_ ->].
  destruct (storeKeySet E updatedKH _) as [[err|id] w4] eqn:Hput; [by inversion Hrot |].
  injection Hrot as -> <- ->.
  apply storeKeySet_ok in Hput as (blob & Hseal & -> & _ & Hstore).
  simpl in *. by exists data, updatedKH, blob.
Qed.

(** X1.  A failed [Create] returns the empty id and no handle and leaves the
    store as it was: no record is added, changed or removed.  The only store
    operation it can have issued is the put that failed. *)
Theorem Create_error_leaves_store
    (kt : KeyType) (w w' : World) (id : string) (handle : option Handle) (err : Error) :
  Create K T E kt w = ((id, handle, Some err), w') →
  id = "" ∧ handle = None ∧
  store w' = store w ∧
  (trace w' = trace w ∨ ∃ kID blob, trace w' = trace w ++ [OpPut kID blob]).
Proof.
  unfold Create. destruct (String.eqb kt ""); [intros [= <- <- _ <-]; auto |].
  destruct (getKeyTemplate K T kt) as [e|t]; [intros [= <- <- _ <-]; auto |].
  unfold NewHandle, draw. simpl.
  destruct (keyset_NewHandle E (entropy w) t) as [e|kh]; [intros [= <- <- _ <-]; auto |].
  destruct (storeKeySet E kh _) as [[e|kID] w2] eqn:Hput; [| by intros [=]].
  intros [= <- <- _ <-].
  apply storeKeySet_failed in Hput as [Hstore Htrace]. simpl in *. auto.
Qed.

(** X2.  A successful [Create] adds one record and touches no other: the
    store after it is the store before it with the sealed keyset of the
    returned handle put under the returned id.  When that id was free, the
    store has grown by exactly one record. *)
Theorem Create_adds_one_record
    (kt : KeyType) (w w' : World) (kID : string) (handle : option Handle) :
  Create K T E kt w = ((kID, handle, None), w') →
  ∃ kh blob,
    handle = Some kh ∧
    envelope_seal E (S (entropy w)) kh = inr blob ∧
    store w' !! kID = Some blob ∧
    (∀ k, k ≠ kID → store w' !! k = store w !! k) ∧
    (store w !! kID = None → size (store w') = S (size (store w))).
Proof.
  intros (t & kh & blob & _ & _ & -> & Hseal & _ & _ & _ & _ & ->)%Create_ok_inv.
  exists kh, blob. repeat apply conj; try done.
  - apply lookup_insert_eq.
  - intros k Hk. by apply lookup_insert_ne.
  - apply map_size_insert_None.
Qed.

(** X3.  [Create] and [Get] round-trip: when the envelope opens what it
    sealed for the new keyset and the store answers, a [Get] of the id that
    [Create] returned gives back the handle that [Create] returned. *)
Theorem Create_then_Get
    (kt : KeyType) (w w' : World) (kID : string) (kh : Handle) :
  Create K T E kt w = ((kID, Some kh, None), w') →
  (∀ blob, envelope_seal E (S (entropy w)) kh = inr blob →
           envelope_open E blob = inr kh) →
  fault w' = None →
  Get E kID w' = (inr kh, issue (OpGet kID) w').
Proof.
  intros (t & kh' & blob & _ & _ & [= <-] & Hseal & _ & _ & _ & _ & Hstore)%Create_ok_inv
    Hopen Hfault.
  assert (Hrec : store w' !! kID = Some blob)
    by (rewrite Hstore; apply lookup_insert_eq).
  unfold Get. rewrite (getKeySet_stored kID w' blob Hfault Hrec).
  by rewrite (Hopen blob Hseal).
Qed.

Lemma ExportPubKeyBytes_fetch_error (id : string) (w : World) (err : Error) :
  fst (getKeySet E id w) = inl err →
  ExportPubKeyBytes E id w = ((None, Some err), issue (OpGet id) w).
Proof.
  intros Hget. unfold ExportPubKeyBytes.
  pose proof (getKeySet_world E id w) as Hw.
  destruct (getKeySet E id w) as [[e|kh] w1]; simpl in *; [| done].
  injection Hget as ->. by subst.
Qed.

(** X4.  A successful [Rotate] retires the old id: unless the new id came
    out equal to the old one, no record is left under the old id and every
    record under a third id is as it was.  When the store answers, a [Get],
    a further [Rotate] and an [ExportPubKeyBytes] of the old id all report
    "not found". *)
Theorem Rotate_retires_old_id
    (kt : KeyType) (keyID : string) (w w' : World)
    (newID : string) (handle : option Handle) :
  Rotate K T E kt keyID w = ((newID, handle, None), w') →
  newID ≠ keyID →
  store w' !! keyID = None ∧
  (∀ k, k ≠ keyID → k ≠ newID → store w' !! k = store w !! k) ∧
  (fault w' = None →
   fst (Get E keyID w') = inl ErrDataNotFound ∧
   (∀ kt2, fst (Rotate K T E kt2 keyID w') = ("", None, Some ErrDataNotFound)) ∧
   fst (ExportPubKeyBytes E keyID w') = (None, Some ErrDataNotFound)).
Proof.
  intros (data & updatedKH & blob & _ & _ & _ & _ & Hstore)%Rotate_ok_inv Hne.
  assert (Hgone : store w' !! keyID = None).
  { rewrite Hstore, lookup_insert_ne by done. apply lookup_delete_eq. }
  split; [exact Hgone |]. split.
  - intros k Hk Hk'. by rewrite Hstore, lookup_insert_ne, lookup_delete_ne.
  - intros Hfault.
    assert (Hget : fst (getKeySet E keyID w') = inl ErrDataNotFound)
      by (by rewrite getKeySet_missing).
    repeat apply conj.
    + exact Hget.
    + intros kt2. by rewrite (Rotate_fetch_error kt2 keyID w' ErrDataNotFound).
    + by rewrite (ExportPubKeyBytes_fetch_error keyID w' ErrDataNotFound).
Qed.

(** X5.  [Rotate] and [Get] round-trip: when the envelope opens what it
    sealed for the updated keyset and the store answers, a [Get] of the new
    id gives back the updated handle that [Rotate] returned. *)
Theorem Rotate_then_Get
    (kt : KeyType) (keyID : string) (w w' : World)
    (newID : string) (updatedKH : Handle) :
  Rotate K T E kt keyID w = ((newID, Some updatedKH, None), w') →
  (∀ blob, envelope_seal E (S (entropy w)) updatedKH = inr blob →
           envelope_open E blob = inr updatedKH) →
  fault w' = None →
  Get E newID w' = (inr updatedKH, issue (OpGet newID) w').
Proof.
  intros (data & kh & blob & _ & [= <-] & Hseal & _ & Hstore)%Rotate_ok_inv
    Hopen Hfault.
  assert (Hrec : store w' !! newID = Some blob)
    by (rewrite Hstore; apply lookup_insert_eq).
  unfold Get. rewrite (getKeySet_stored newID w' blob Hfault Hrec).
  by rewrite (Hopen blob Hseal).
Qed.

(** X6.  Rotation does not grow the store: after a successful [Rotate] with
    a new id that was free, the store holds as many records as before, the
    old one having made room for the new one. *)
Theorem Rotate_keeps_store_size
    (kt : KeyType) (keyID : string) (w w' : World)
    (newID : string) (handle : option Handle) :
  Rotate K T E kt keyID w = ((newID, handle, None), w') →
  store w !! newID = None →
  size (store w') = size (store w).
Proof.
  intros (data & updatedKH & blob & Hold & _ & _ & _ & ->)%Rotate_ok_inv Hfree.
  assert (Hne : keyID ≠ newID) by (intros ->; by rewrite Hold in Hfree).
  rewrite map_size_insert_None by (by rewrite lookup_delete_ne).
  rewrite <- (insert_delete_id (store w) keyID data Hold) at 2.
  by rewrite map_size_insert_None by apply lookup_delete_eq.
Qed.

(** X7.  [ExportPubKeyBytes] only reads: it issues the one read of the id
    and leaves the store as it was.  It answers as the export of what [Get]
    returns for the id: the error of [Get] when [Get] fails, and otherwise
    the public key bytes of the handle [Get] returns, or the error of their
    export. *)
Theorem ExportPubKeyBytes_reads_only (id : string) (w : World) :
  snd (ExportPubKeyBytes E id w) = issue (OpGet id) w ∧
  store (snd (ExportPubKeyBytes E id w)) = store w ∧
  fst (ExportPubKeyBytes E id w) =
  match fst (Get E id w) with
  | inl err => (None, Some err)
  | inr kh =>
      match exportHandle E kh with
      | inl err => (None, Some err)
      | inr buf => (Some buf, None)
      end
  end.
Proof.
  assert (Hboth : snd (ExportPubKeyBytes E id w) = issue (OpGet id) w ∧
                  fst (ExportPubKeyBytes E id w) =
                  match fst (Get E id w) with
                  | inl err => (None, Some err)
                  | inr kh =>
                      match exportHandle E kh with
                      | inl err => (None, Some err)
                      | inr buf => (Some buf, None)
                      end
                  end).
  { unfold Get. pose proof (getKeySet_world E id w) as Hw.
    destruct (getKeySet E id w) as [[err|kh] w1] eqn:Hget; simpl in Hw; subst w1.
    - by rewrite (ExportPubKeyBytes_fetch_error id w err) by (by rewrite Hget).
    - by rewrite (ExportPubKeyBytes_fetched E id w _ kh Hget). }
  destruct Hboth as [Hw Hres]. by rewrite Hw.
Qed.

(** X8.  An id the store does not hold is reported as "not found" by
    [Rotate], for every key type, recognized or not, and by
    [ExportPubKeyBytes], when the store answers; neither changes the store,
    and both stop after the one read. *)
Theorem missing_key_not_found (id : string) (w : World) :
  store w !! id = None →
  fault w = None →
  (∀ kt, Rotate K T E kt id w
         = (("", None, Some ErrDataNotFound), issue (OpGet id) w)) ∧
  ExportPubKeyBytes E id w = ((None, Some ErrDataNotFound), issue (OpGet id) w) ∧
  store (issue (OpGet id) w) = store w.
Proof.
  intros Hnone Hfault.
  assert (Hget : fst (getKeySet E id w) = inl ErrDataNotFound)
    by (by rewrite getKeySet_missing).
  repeat apply conj.
  - intros kt. by apply Rotate_fetch_error.
  - by apply ExportPubKeyBytes_fetch_error.
  - done.
Qed.

(** What a write does to the store: nothing when it fails; when it succeeds,
    it puts the buffer under the id it returns, which is the requested id, if
    one was requested, and was free then. *)
Lemma writeToStore_store (buf : bytes) (opts : list PrivateKeyOpts) (w w' : World)
    (r : Error + string) :
  writeToStore E buf opts w = (r, w') →
  match r with
  | inl _ => store w' = store w
  | inr id =>
      store w' = <[id := buf]> (store w) ∧
      (∀ requested, KsID opts = Some requested →
                    id = requested ∧ store w !! requested = None)
  end.
Proof.
  unfold writeToStore, storeWriter_Write, newWriter. simpl.
  destruct (KsID opts) as [requested|].
  - unfold verifyRequestedID, store_Get.
    destruct (fault w) as [msg|]; [by intros [= <- <-] |].
    destruct (store w !! requested) as [v|] eqn:Hrec; [by intros [= <- <-] |].
    unfold store_Put, fault. simpl.
    destruct (tail (faults w)) as [|[msg|] fs]; intros [= <- <-]; simpl; try done.
    all: split; [done |]; by intros ? [= <-].
  - unfold newKeysetID, store_Put, draw, fault. simpl.
    destruct (faults w) as [|[msg|] fs]; intros [= <- <-]; simpl; try done.
    all: split; [done |]; by intros ? [=].
Qed.

Lemma importKeySet_store (validated : Error + Keyset)
    (opts : list PrivateKeyOpts) (w w' : World) (res : Result3) :
  importKeySet E validated opts w = (res, w') →
  match snd res with
  | Some _ => store w' = store w
  | None =>
      ∃ blob,
        store w' = <[fst (fst res) := blob]> (store w) ∧
        (∀ requested, KsID opts = Some requested →
                      fst (fst res) = requested ∧ store w !! requested = None)
  end.
Proof.
  unfold importKeySet. destruct validated as [err|s]; [by intros [= <- <-] |].
  unfold Handle_Write, draw. simpl.
  destruct (envelope_seal E (entropy w) {| ks := s |}) as [err|blob];
    [by intros [= <- <-] |].
  destruct (writeToStore E blob opts _) as [[err|id] w2] eqn:Hwrite;
    apply writeToStore_store in Hwrite; intros [= <- <-]; simpl in *; [done |].
  by exists blob.
Qed.

(** X9.  Only [Rotate] removes records.  Whatever [Create], [Get],
    [ExportPubKeyBytes], [PubKeyBytesToHandle] and [ImportPrivateKey] return,
    every id that had a record before the call has one after it. *)
Theorem only_Rotate_removes_records (k : string) (w : World) :
  is_Some (store w !! k) →
  (∀ kt, is_Some (store (snd (Create K T E kt w)) !! k)) ∧
  (∀ id, is_Some (store (snd (Get E id w)) !! k)) ∧
  (∀ id, is_Some (store (snd (ExportPubKeyBytes E id w)) !! k)) ∧
  (∀ pubKey kt, is_Some (store (snd (PubKeyBytesToHandle E pubKey kt w)) !! k)) ∧
  (∀ privKey kt opts, is_Some (store (snd (ImportPrivateKey E privKey kt opts w)) !! k)).
Proof.
  intros Hk.
  assert (Hinsert : ∀ id blob, is_Some (<[id := blob]> (store w) !! k)).
  { intros id blob. destruct (decide (id = k)) as [->|Hne].
    - rewrite lookup_insert_eq. by eexists.
    - by rewrite lookup_insert_ne. }
  repeat apply conj.
  - intros kt. destruct (Create K T E kt w) as [[[id handle] [err|]] w'] eqn:Hc.
    + apply Create_error_inv in Hc. simpl. by rewrite Hc.
    + apply Create_ok_inv in Hc as (t & kh & blob & _ & _ & _ & _ & _ & _ & _ & _ & Hst).
      simpl. rewrite Hst. apply Hinsert.
  - intros id. unfold Get. by rewrite getKeySet_world.
  - intros id.
    replace (snd (ExportPubKeyBytes E id w)) with (issue (OpGet id) w); [done |].
    unfold ExportPubKeyBytes. pose proof (getKeySet_world E id w) as Hw.
    destruct (getKeySet E id w) as [[err|kh] w1]; simpl in Hw; subst w1; [done |].
    destruct (Handle_Public kh); [done |].
    by destruct (Handle_WriteWithNoSecrets _ _).
  - done.
  - intros privKey kt opts.
    assert (Htail : ∀ validated,
              is_Some (store (snd (importKeySet E validated opts w)) !! k)).
    { intros validated.
      destruct (importKeySet E validated opts w) as [res w'] eqn:Hi.
      apply importKeySet_store in Hi. simpl.
      destruct (snd res); [by rewrite Hi |].
      destruct Hi as (blob & -> & _). apply Hinsert. }
    destruct privKey; simpl; try done; apply Htail.
Qed.

(** X10.  A successful [ImportPrivateKey] puts one record, under the id it
    returns, and changes no other.  When an id was requested with
    [WithKeyID], the id it returns is the requested one, and that id was free
    before the call: an import never replaces a record under a requested
    id. *)
Theorem ImportPrivateKey_stores_under_requested_id
    (privKey : GoValue) (kt : KeyType) (opts : list PrivateKeyOpts)
    (w w' : World) (id : string) (handle : option Handle) :
  ImportPrivateKey E privKey kt opts w = ((id, handle, None), w') →
  (∃ blob, store w' = <[id := blob]> (store w)) ∧
  (∀ k, k ≠ id → store w' !! k = store w !! k) ∧
  (∀ requested, KsID opts = Some requested →
                id = requested ∧ store w !! requested = None).
Proof.
  intros Himport.
  assert (Htail : ∃ validated,
            importKeySet E validated opts w = ((id, handle, None), w')).
  { destruct privKey; simpl in Himport; try by inversion Himport.
    - by eexists.
    - by eexists. }
  destruct Htail as [validated Hi].
  apply importKeySet_store in Hi as (blob & Hstore & Hreq). simpl in *.
  split; [by exists blob |]. split; [| exact Hreq].
  intros k Hk. by rewrite Hstore, lookup_insert_ne.
Qed.

End Composition.

(** ** The REST operations of the messaging controller *)

Section RESTFacts.

Import MessagingREST.

Context {Provider Registrar Notifier Command CmdError : Type}.
Context (messaging_New : Provider → Registrar → Notifier → CmdError + Command).

(** X11.  [New] of the messaging controller fails exactly when the
    messaging command cannot be created, with that failure as the cause of
    its error.  When the command is created, [New] succeeds: it returns an
    operation that carries the command and whose [GetRESTHandlers] lists six
    handlers; no two have the same path, no two execute the same method of
    the command, and the only one that answers GET is the list of services,
    all others answer POST. *)
Theorem New_registers_unambiguous_routes
    (ctx : Provider) (registrar : Registrar) (notifier : Notifier) :
  (∀ cause, messaging_New ctx registrar notifier = inl cause ↔
            New messaging_New ctx registrar notifier
            = inl (FailedToCreateCommand cause)) ∧
  (∀ msgcmd, messaging_New ctx registrar notifier = inr msgcmd →
     ∃ o, New messaging_New ctx registrar notifier = inr o ∧
          command o = msgcmd ∧
          length (GetRESTHandlers o) = 6 ∧
          NoDup (Path <$> GetRESTHandlers o) ∧
          NoDup (handle <$> GetRESTHandlers o) ∧
          (∀ h, h ∈ GetRESTHandlers o →
                (Method h = MethodGet ∧ handle h = Services) ∨
                (Method h = MethodPost ∧ handle h ≠ Services))) ∧
  (∀ o, New messaging_New ctx registrar notifier = inr o →
        messaging_New ctx registrar notifier = inr (command o)).
Proof.
  unfold New. repeat apply conj.
  - intros cause. split; [by intros -> |].
    destruct (messaging_New ctx registrar notifier) as [err|msgcmd];
      by intros [= <-].
  - intros msgcmd ->. eexists. split; [reflexivity |]. simpl. repeat apply conj.
    + done.
    + done.
    + apply (bool_decide_unpack _). vm_compute. exact I.
    + apply (bool_decide_unpack _). vm_compute. exact I.
    + intros h. rewrite !elem_of_cons, elem_of_nil.
      intros [-> | [-> | [-> | [-> | [-> | [-> | []]]]]]]; simpl;
        first [by left | by right].
  - intros o. destruct (messaging_New ctx registrar notifier) as [err|msgcmd];
      [by intros [=] |].
    by intros [= <-].
Qed.

End RESTFacts.

(** ** Runs of the composed operations *)

Lemma Create_error_leaves_store_witness :
  let r := Create Sample.keyTypes Sample.templates Codebook.env
             "ECDSAP256IEEEP1363" Codebook.fullDisk in
  r = (("", None, Some (ErrStore "disk full")), snd r) ∧
  "" = "" ∧ @None Handle = None ∧
  store (snd r) = store Codebook.fullDisk ∧
  (trace (snd r) = trace Codebook.fullDisk ∨
   ∃ kID blob, trace (snd r) = trace Codebook.fullDisk ++ [OpPut kID blob]).
Proof.
  intros r.
  assert (Hrun : r = (("", None, Some (ErrStore "disk full")), snd r))
    by (vm_compute; reflexivity).
  split; [exact Hrun |].
  exact (Create_error_leaves_store Sample.keyTypes Sample.templates Codebook.env
           "ECDSAP256IEEEP1363" Codebook.fullDisk (snd r) "" None
           (ErrStore "disk full") Hrun).
Defined.

Lemma Codebook_Create_run :
  Create Sample.keyTypes Sample.templates Codebook.env
    "ECDSAP256IEEEP1363" Codebook.emptyWorld
  = (("id-2", Some Codebook.created, None), Codebook.afterCreate).
Proof. vm_compute. reflexivity. Defined.

Lemma Codebook_Rotate_run :
  Rotate Sample.keyTypes Sample.templates Codebook.env
    "ECDSAP256IEEEP1363" "id-2" Codebook.afterCreate
  = (("id-5", Some Codebook.rotated, None), Codebook.afterRotate).
Proof. vm_compute. reflexivity. Defined.

Lemma Create_adds_one_record_witness :
  ∃ kh blob,
    Some Codebook.created = Some kh ∧
    envelope_seal Codebook.env (S (entropy Codebook.emptyWorld)) kh = inr blob ∧
    store Codebook.afterCreate !! "id-2" = Some blob ∧
    (∀ k, k ≠ "id-2" →
          store Codebook.afterCreate !! k = store Codebook.emptyWorld !! k) ∧
    (store Codebook.emptyWorld !! "id-2" = None →
     size (store Codebook.afterCreate) = S (size (store Codebook.emptyWorld))).
Proof.
  exact (Create_adds_one_record Sample.keyTypes Sample.templates Codebook.env
           "ECDSAP256IEEEP1363" Codebook.emptyWorld Codebook.afterCreate
           "id-2" (Some Codebook.created) Codebook_Create_run).
Defined.

Lemma Create_then_Get_witness :
  Get Codebook.env "id-2" Codebook.afterCreate
  = (inr Codebook.created, issue (OpGet "id-2") Codebook.afterCreate).
Proof.
  apply (Create_then_Get Sample.keyTypes Sample.templates Codebook.env
           "ECDSAP256IEEEP1363" Codebook.emptyWorld Codebook.afterCreate
           "id-2" Codebook.created Codebook_Create_run).
  - intros blob Hseal. vm_compute in Hseal. injection Hseal as <-. reflexivity.
  - vm_compute. reflexivity.
Defined.

Lemma Rotate_retires_old_id_witness :
  "id-5" ≠ "id-2" ∧
  store Codebook.afterRotate !! "id-2" = None ∧
  fst (Get Codebook.env "id-2" Codebook.afterRotate) = inl ErrDataNotFound.
Proof.
  assert (Hne : "id-5" ≠ "id-2") by discriminate.
  split; [exact Hne |].
  destruct (Rotate_retires_old_id Sample.keyTypes Sample.templates Codebook.env
              "ECDSAP256IEEEP1363" "id-2" Codebook.afterCreate Codebook.afterRotate
              "id-5" (Some Codebook.rotated) Codebook_Rotate_run Hne)
    as (Hgone & _ & Hlater).
  split; [exact Hgone |].
  apply Hlater. vm_compute. reflexivity.
Defined.

Lemma Rotate_then_Get_witness :
  Get Codebook.env "id-5" Codebook.afterRotate
  = (inr Codebook.rotated, issue (OpGet "id-5") Codebook.afterRotate).
Proof.
  apply (Rotate_then_Get Sample.keyTypes Sample.templates Codebook.env
           "ECDSAP256IEEEP1363" "id-2" Codebook.afterCreate Codebook.afterRotate
           "id-5" Codebook.rotated Codebook_Rotate_run).
  - intros blob Hseal. vm_compute in Hseal. injection Hseal as <-. reflexivity.
  - vm_compute. reflexivity.
Defined.

Lemma Rotate_keeps_store_size_witness :
  store Codebook.afterCreate !! "id-5" = None ∧
  size (store Codebook.afterRotate) = size (store Codebook.afterCreate).
Proof.
  assert (Hfree : store Codebook.afterCreate !! "id-5" = None)
    by (vm_compute; reflexivity).
  split; [exact Hfree |].
  exact (Rotate_keeps_store_size Sample.keyTypes Sample.templates Codebook.env
           "ECDSAP256IEEEP1363" "id-2" Codebook.afterCreate Codebook.afterRotate
           "id-5" (Some Codebook.rotated) Codebook_Rotate_run Hfree).
Defined.

Lemma missing_key_not_found_witness :
  store Sample.world !! "k9" = None ∧
  fault Sample.world = None ∧
  Rotate Sample.keyTypes Sample.templates Sample.env "ROT13" "k9" Sample.world
  = (("", None, Some ErrDataNotFound), issue (OpGet "k9") Sample.world) ∧
  ExportPubKeyBytes Sample.env "k9" Sample.world
  = ((None, Some ErrDataNotFound), issue (OpGet "k9") Sample.world).
Proof.
  assert (Hnone : store Sample.world !! "k9" = None) by (vm_compute; reflexivity).
  assert (Hfault : fault Sample.world = None) by reflexivity.
  split; [exact Hnone |]. split; [exact Hfault |].
  destruct (missing_key_not_found Sample.keyTypes Sample.templates Sample.env
              "k9" Sample.world Hnone Hfault) as (Hrot & Hexp & _).
  split; [exact (Hrot "ROT13") | exact Hexp].
Defined.

Lemma only_Rotate_removes_records_witness :
  is_Some (store Sample.world !! "k1") ∧
  is_Some (store (snd (Create Sample.keyTypes Sample.templates Sample.env
                         "ED25519" Sample.world)) !! "k1") ∧
  is_Some (store (snd (ImportPrivateKey Sample.env (V_ed25519_PrivateKey [x2a; x04])
                         "ED25519" [WithKeyID "k9"] Sample.world)) !! "k1").
Proof.
  assert (Hk : is_Some (store Sample.world !! "k1"))
    by (eexists; vm_compute; reflexivity).
  split; [exact Hk |].
  destruct (only_Rotate_removes_records Sample.keyTypes Sample.templates Sample.env
              "k1" Sample.world Hk) as (Hcreate & _ & _ & _ & Himport).
  split; [apply Hcreate | apply Himport].
Defined.

Lemma ImportPrivateKey_stores_under_requested_id_witness :
  let r := ImportPrivateKey Sample.env (V_ed25519_PrivateKey [x2a; x04])
             "ED25519" [WithKeyID "k9"] Sample.world in
  r = (("k9", snd (fst (fst r)), None), snd r) ∧
  (∃ blob, store (snd r) = <["k9" := blob]> (store Sample.world)) ∧
  (∀ k, k ≠ "k9" → store (snd r) !! k = store Sample.world !! k) ∧
  (∀ requested, KsID [WithKeyID "k9"] = Some requested →
                "k9" = requested ∧ store Sample.world !! requested = None).
Proof.
  intros r.
  assert (Hrun : r = (("k9", snd (fst (fst r)), None), snd r))
    by (vm_compute; reflexivity).
  split; [exact Hrun |].
  exact (ImportPrivateKey_stores_under_requested_id Sample.env
           (V_ed25519_PrivateKey [x2a; x04]) "ED25519" [WithKeyID "k9"]
           Sample.world (snd r) "k9" (snd (fst (fst r))) Hrun).
Defined.

(** A messaging command that is created: [New] succeeds and registers its
    six routes. *)
Lemma New_registers_unambiguous_routes_witness :
  let messaging_New : unit → unit → unit → string + nat := λ _ _ _, inr 7 in
  ∃ o, MessagingREST.New messaging_New tt tt tt = inr o ∧
       MessagingREST.command o = 7 ∧
       length (MessagingREST.GetRESTHandlers o) = 6 ∧
       NoDup (MessagingREST.Path <$> MessagingREST.GetRESTHandlers o) ∧
       NoDup (MessagingREST.handle <$> MessagingREST.GetRESTHandlers o) ∧
       (∀ h, h ∈ MessagingREST.GetRESTHandlers o →
             (MessagingREST.Method h = MessagingREST.MethodGet ∧
              MessagingREST.handle h = MessagingREST.Services) ∨
             (MessagingREST.Method h = MessagingREST.MethodPost ∧
              MessagingREST.handle h ≠ MessagingREST.Services)).
Proof.
  intros messaging_New.
  destruct (New_registers_unambiguous_routes messaging_New tt tt tt) as (_ & Hok & _).
  exact (Hok 7 eq_refl).
Defined.
